(** * Change classification over Python syntax trees

    A shallow embedding of the two variants of the change analyser of
    AMS_Project ([astTest.py], the fingerprint-set variant, and [ast2.py],
    the line-scorer variant), followed by the properties of their
    classification engine.

    Parsing is outside the engine: the analysers are modelled from
    the parsed trees onwards.  The standard-library pieces the code calls
    are modelled next to it: [hashlib.md5] by the algorithm of RFC 1321,
    [ast.iter_fields] / [ast.walk] / [ast.NodeVisitor] by their definitions,
    while [ast.dump], [ast.unparse] and [difflib.unified_diff] are kept as
    parameters of the line-scorer variant. *)

From Stdlib Require Import ZArith Ascii String List Lia Permutation.
From stdpp Require Import base gmap strings list.

(** ** Python values held by the fields of a syntax node *)

Module Py.

Set Warnings "-register-all".

(** Scalar field values: [None], booleans, integers and text.  (Floats,
    bytes and complex literals do not occur in the trees studied here.) *)
Inductive const : Type :=
| CNone
| CBool (b : bool)
| CInt (z : Z)
| CStr (s : string).

(** A field holds a scalar, an [ast.AST] instance (its class name and its
    [_fields] in declaration order), or a Python list. *)
Inductive value : Type :=
| Const (c : const)
| Node (cls : string) (fields : list (string * value))
| PyList (items : list value).

(** [isinstance(v, ast.AST)] and [isinstance(v, list)]. *)
Definition is_AST (v : value) : bool :=
  match v with Node _ _ => true | _ => false end.

Definition is_list (v : value) : bool :=
  match v with PyList _ => true | _ => false end.

(** [a == b] on scalars.  [bool] is a subclass of [int] in Python, so
    [True == 1] and [False == 0] hold. *)
Definition const_eq (a b : const) : bool :=
  match a, b with
  | CNone, CNone => true
  | CBool x, CBool y => Bool.eqb x y
  | CInt x, CInt y => Z.eqb x y
  | CBool x, CInt y => Z.eqb (Z.b2z x) y
  | CInt x, CBool y => Z.eqb x (Z.b2z y)
  | CStr x, CStr y => String.eqb x y
  | _, _ => false
  end.

(** [a == b] on field values that are not both [ast.AST] instances.
    [ast.AST] defines no [__eq__], so a node is equal only to itself; the
    two trees compared by the analyser come from two separate parses, hence
    a node of one is never equal to a value of the other.  Lists compare
    element by element. *)
Fixpoint py_eq (a b : value) {struct a} : bool :=
  match a, b with
  | Const x, Const y => const_eq x y
  | PyList xs, PyList ys =>
      (fix items (xs : list value) (ys : list value) {struct xs} : bool :=
         match xs, ys with
         | [], [] => true
         | x :: xs', y :: ys' => py_eq x y && items xs' ys'
         | _, _ => false
         end) xs ys
  | _, _ => false
  end.

(** [getattr(node, field)].  The parser sets every field of a node's class;
    an absent field reads as [None]. *)
Fixpoint assoc (f : string) (fs : list (string * value)) : option value :=
  match fs with
  | [] => None
  | (g, v) :: fs' => if String.eqb f g then Some v else assoc f fs'
  end.

Definition getattr (node : value) (f : string) : value :=
  match node with
  | Node _ fs => match assoc f fs with Some v => v | None => Const CNone end
  | _ => Const CNone
  end.

(** [type(node).__name__]. *)
Definition class_name_of (node : value) : string :=
  match node with Node cls _ => cls | _ => EmptyString end.

(** [node.name], [node.body] and [node.args] of a definition node. *)
Definition name_of (node : value) : string :=
  match getattr node "name" with Const (CStr s) => s | _ => EmptyString end.

Definition body_of (node : value) : list value :=
  match getattr node "body" with PyList l => l | _ => [] end.

Definition args_of (node : value) : value := getattr node "args".

Definition is_FunctionDef (v : value) : bool :=
  String.eqb (class_name_of v) "FunctionDef".

Definition is_ClassDef (v : value) : bool :=
  String.eqb (class_name_of v) "ClassDef".

(** [ast.iter_fields(node)]. *)
Definition iter_fields (node : value) : list (string * value) :=
  match node with Node _ fs => fs | _ => [] end.

(** [ast.iter_child_nodes(node)]: the fields that are nodes, and the nodes
    inside the fields that are lists, in field order. *)
Definition iter_child_nodes (node : value) : list value :=
  flat_map (fun fv : string * value =>
              match snd fv with
              | Node _ _ => [snd fv]
              | PyList items => filter (fun it => is_AST it = true) items
              | Const _ => []
              end) (iter_fields node).

(** Number of constructors of a value: a bound on the nodes below it. *)
Fixpoint weight (v : value) : nat :=
  match v with
  | Const _ => 1
  | Node _ fs => S (list_sum (map (fun fv : string * value => weight (snd fv)) fs))
  | PyList items => S (list_sum (map weight items))
  end.

(** [ast.walk(node)]: a queue holds the nodes still to yield; each step
    pops the first one, appends its children and yields it. *)
Fixpoint walk_queue (fuel : nat) (todo : list value) : list value :=
  match fuel with
  | O => []
  | S fuel' =>
      match todo with
      | [] => []
      | node :: rest => node :: walk_queue fuel' (rest ++ iter_child_nodes node)
      end
  end.

Definition walk (node : value) : list value := walk_queue (weight node) [node].

(** All nodes below and including a node in depth-first pre-order: the
    order in which [ast.NodeVisitor.generic_visit] reaches them. *)
Fixpoint preorder (v : value) : list value :=
  match v with
  | Const _ => []
  | Node _ fs =>
      v :: flat_map (fun fv : string * value =>
                       match snd fv with
                       | Node _ _ => preorder (snd fv)
                       | PyList items =>
                           flat_map (fun it => match it with
                                               | Node _ _ => preorder it
                                               | _ => []
                                               end) items
                       | Const _ => []
                       end) fs
  | PyList _ => []
  end.

End Py.

(** ** Node classes, as [ast.parse] builds them (Python 3.9 to 3.11) *)

Module Syntax.
Import Py.

Definition None_ : value := Const CNone.
Definition Str (s : string) : value := Const (CStr s).

Definition Load : value := Node "Load" [].
Definition Store : value := Node "Store" [].

Definition Name (id : string) (ctx : value) : value :=
  Node "Name" [("id", Str id); ("ctx", ctx)].

Definition Constant (v : const) : value :=
  Node "Constant" [("value", Const v); ("kind", None_)].

Definition Attribute (v : value) (attr : string) (ctx : value) : value :=
  Node "Attribute" [("value", v); ("attr", Str attr); ("ctx", ctx)].

Definition Call (func : value) (args keywords : list value) : value :=
  Node "Call" [("func", func); ("args", PyList args);
               ("keywords", PyList keywords)].

Definition Expr (v : value) : value := Node "Expr" [("value", v)].

Definition Assign (targets : list value) (v : value) : value :=
  Node "Assign" [("targets", PyList targets); ("value", v);
                 ("type_comment", None_)].

Definition Return (v : value) : value := Node "Return" [("value", v)].

Definition Pass : value := Node "Pass" [].

Definition For (target iter : value) (body orelse : list value) : value :=
  Node "For" [("target", target); ("iter", iter); ("body", PyList body);
              ("orelse", PyList orelse); ("type_comment", None_)].

Definition While (test : value) (body orelse : list value) : value :=
  Node "While" [("test", test); ("body", PyList body);
                ("orelse", PyList orelse)].

Definition If (test : value) (body orelse : list value) : value :=
  Node "If" [("test", test); ("body", PyList body);
             ("orelse", PyList orelse)].

Definition arg (name : string) : value :=
  Node "arg" [("arg", Str name); ("annotation", None_);
              ("type_comment", None_)].

(** Positional parameters [args] with the default values [defaults] of
    the last of them. *)
Definition arguments (args defaults : list value) : value :=
  Node "arguments" [("posonlyargs", PyList []); ("args", PyList args);
                    ("vararg", None_); ("kwonlyargs", PyList []);
                    ("kw_defaults", PyList []); ("kwarg", None_);
                    ("defaults", PyList defaults)].

Definition FunctionDef (name : string) (args : value) (body : list value)
    : value :=
  Node "FunctionDef" [("name", Str name); ("args", args);
                      ("body", PyList body); ("decorator_list", PyList []);
                      ("returns", None_); ("type_comment", None_)].

Definition ClassDef (name : string) (body : list value) : value :=
  Node "ClassDef" [("name", Str name); ("bases", PyList []);
                   ("keywords", PyList []); ("body", PyList body);
                   ("decorator_list", PyList [])].

Definition Module_ (body : list value) : value :=
  Node "Module" [("body", PyList body); ("type_ignores", PyList [])].

End Syntax.

(** ** MD5 (RFC 1321), the digest behind [hashlib.md5] *)

Module MD5.

Local Open Scope Z_scope.

Definition add32 (x y : Z) : Z := (x + y) mod 4294967296.

Definition not32 (x : Z) : Z := Z.lxor x 4294967295.

Definition rotl32 (x c : Z) : Z :=
  Z.lor (Z.shiftl x c mod 4294967296) (Z.shiftr x (32 - c)).

(** Per-round shift amounts. *)
Definition shifts : list Z :=
  [7; 12; 17; 22; 7; 12; 17; 22; 7; 12; 17; 22; 7; 12; 17; 22;
   5; 9; 14; 20; 5; 9; 14; 20; 5; 9; 14; 20; 5; 9; 14; 20;
   4; 11; 16; 23; 4; 11; 16; 23; 4; 11; 16; 23; 4; 11; 16; 23;
   6; 10; 15; 21; 6; 10; 15; 21; 6; 10; 15; 21; 6; 10; 15; 21].

(** [floor (2^32 * abs (sin (i + 1)))] for [i] from 0 to 63. *)
Definition sines : list Z :=
  [3614090360; 3905402710; 606105819; 3250441966;
   4118548399; 1200080426; 2821735955; 4249261313;
   1770035416; 2336552879; 4294925233; 2304563134;
   1804603682; 4254626195; 2792965006; 1236535329;
   4129170786; 3225465664; 643717713; 3921069994;
   3593408605; 38016083; 3634488961; 3889429448;
   568446438; 3275163606; 4107603335; 1163531501;
   2850285829; 4243563512; 1735328473; 2368359562;
   4294588738; 2272392833; 1839030562; 4259657740;
   2763975236; 1272893353; 4139469664; 3200236656;
   681279174; 3936430074; 3572445317; 76029189;
   3654602809; 3873151461; 530742520; 3299628645;
   4096336452; 1126891415; 2878612391; 4237533241;
   1700485571; 2399980690; 4293915773; 2240044497;
   1873313359; 4264355552; 2734768916; 1309151649;
   4149444226; 3174756917; 718787259; 3951481745].

Definition bytes_of_string (s : string) : list Z :=
  map (fun a => Z.of_N (N_of_ascii a)) (list_ascii_of_string s).

(** [n] bytes of [x], least significant first. *)
Fixpoint le_bytes (n : nat) (x : Z) : list Z :=
  match n with
  | O => []
  | S n' => x mod 256 :: le_bytes n' (x / 256)
  end.

(** The value of a little-endian byte sequence. *)
Fixpoint le_value (bs : list Z) : Z :=
  match bs with
  | [] => 0
  | b :: bs' => b + 256 * le_value bs'
  end.

(** Padding: a 1 bit, zeros up to 56 modulo 64 bytes, then the bit length
    on 64 bits. *)
Definition pad (msg : list Z) : list Z :=
  let len := Z.of_nat (length msg) in
  msg ++ [128] ++ repeat 0 (Z.to_nat ((55 - len) mod 64))
      ++ le_bytes 8 ((8 * len) mod 18446744073709551616).

(** Cut a byte sequence into [n] pieces of [k] bytes. *)
Fixpoint pieces (n k : nat) (bs : list Z) : list (list Z) :=
  match n with
  | O => []
  | S n' => firstn k bs :: pieces n' k (skipn k bs)
  end.

Definition state : Type := Z * Z * Z * Z.

Definition init : state := (1732584193, 4023233417, 2562383102, 271733878).

(** One of the 64 operations on a block whose sixteen words are [M]. *)
Definition step (M : list Z) (st : state) (i : nat) : state :=
  let '(A, B, C, D) := st in
  let iz := Z.of_nat i in
  let '(F, g) :=
    if iz <? 16 then (Z.lor (Z.land B C) (Z.land (not32 B) D), iz)
    else if iz <? 32 then
      (Z.lor (Z.land D B) (Z.land (not32 D) C), (5 * iz + 1) mod 16)
    else if iz <? 48 then (Z.lxor B (Z.lxor C D), (3 * iz + 5) mod 16)
    else (Z.lxor C (Z.lor B (not32 D)), (7 * iz) mod 16) in
  let F' := add32 (add32 (add32 F A) (nth i sines 0)) (nth (Z.to_nat g) M 0) in
  (D, add32 B (rotl32 F' (nth i shifts 0)), B, C).

Definition block (st : state) (chunk : list Z) : state :=
  let M := map le_value (pieces 16 4 chunk) in
  let '(a0, b0, c0, d0) := st in
  let '(A, B, C, D) := fold_left (step M) (seq 0 64) st in
  (add32 a0 A, add32 b0 B, add32 c0 C, add32 d0 D).

Definition digest_bytes (msg : list Z) : list Z :=
  let padded := pad msg in
  let '(a0, b0, c0, d0) :=
    fold_left block (pieces (Nat.div (length padded) 64) 64 padded) init in
  le_bytes 4 a0 ++ le_bytes 4 b0 ++ le_bytes 4 c0 ++ le_bytes 4 d0.

Definition hex_digit (d : Z) : ascii :=
  ascii_of_N (Z.to_N (if d <? 10 then 48 + d else 87 + d)).

Definition hex_of_bytes (bs : list Z) : string :=
  string_of_list_ascii
    (flat_map (fun b => [hex_digit (b / 16); hex_digit (b mod 16)]) bs).

(** [hashlib.md5(s.encode()).hexdigest()] for an ASCII string [s]. *)
Definition hexdigest (s : string) : string :=
  hex_of_bytes (digest_bytes (bytes_of_string s)).

End MD5.

(** ** The symbol table builder, [ASTVisitor] (the same class in both files) *)

Module ASTVisitor.
Import Py.

(** The two dictionaries of the visitor. *)
Record t : Type := mk {
  functions : gmap string value;
  classes : gmap string value
}.

(** [__init__]: both dictionaries empty. *)
Definition init : t := {| functions := ∅; classes := ∅ |}.

(** [self.functions[node.name] = node] and [self.classes[node.name] = node]. *)
Definition set_function (node : value) (self : t) : t :=
  {| functions := <[name_of node := node]> (functions self);
     classes := classes self |}.

Definition set_class (node : value) (self : t) : t :=
  {| functions := functions self;
     classes := <[name_of node := node]> (classes self) |}.

(** The assignment made by [visit_FunctionDef] / [visit_ClassDef] before
    they call [generic_visit]; other classes have no [visit_] method and go
    to [generic_visit] directly. *)
Definition record (node : value) (self : t) : t :=
  if is_FunctionDef node then set_function node self
  else if is_ClassDef node then set_class node self
  else self.

(** [NodeVisitor.visit] with [generic_visit] unfolded: after the
    assignment, every field is scanned in order; nodes found in a list
    field, and a field that is a node, are visited. *)
Fixpoint visit (self : t) (node : value) {struct node} : t :=
  match node with
  | Node _ fields =>
      fold_left
        (fun (self : t) (fv : string * value) =>
           match snd fv with
           | PyList items =>
               fold_left (fun (self : t) (item : value) =>
                            match item with
                            | Node _ _ => visit self item
                            | _ => self
                            end) items self
           | Node _ _ => visit self (snd fv)
           | Const _ => self
           end)
        fields (record node self)
  | _ => self
  end.

End ASTVisitor.

(** ** [astTest.py]: the fingerprint-set variant *)

Module astTest.
Import Py.

(** [class ChangeType(BaseModel)]: three flags, all [False] by default. *)
Record ChangeType : Type := mkChangeType {
  structural : bool;
  minor_edit : bool;
  rearrangement : bool
}.

(** [ChangeType()]. *)
Definition ChangeType_default : ChangeType :=
  {| structural := false; minor_edit := false; rearrangement := false |}.

(** Equality of two models: field by field. *)
Definition ChangeType_eqb (a b : ChangeType) : bool :=
  Bool.eqb (structural a) (structural b)
  && Bool.eqb (minor_edit a) (minor_edit b)
  && Bool.eqb (rearrangement a) (rearrangement b).

Module FunctionChange.
Record t : Type := mk {
  name : string;
  signature_change : bool;
  body_change : ChangeType;
  nested_function_change : bool
}.
End FunctionChange.

Module ClassMethodChange.
Record t : Type := mk {
  class_name : string;
  method_name : string;
  signature_change : bool;
  body_change : ChangeType
}.
End ClassMethodChange.

Record ChangeAnalysis : Type := mkChangeAnalysis {
  added_functions : list string;
  removed_functions : list string;
  function_changes : list FunctionChange.t;
  class_method_changes : list ClassMethodChange.t
}.

(** *** [ASTHasher] *)

Definition join (l : list string) : string := fold_right String.append EmptyString l.

(** The bytes passed to [self.hash.update] while [visit(node)] runs: the
    class name of the node, then the updates of the nodes found in its
    fields, in field order.  Scalars, and list items that are not nodes,
    add nothing. *)
Fixpoint hash_updates (node : value) : string :=
  match node with
  | Node cls fields =>
      cls +:+
      join (map (fun fv : string * value =>
                   match snd fv with
                   | PyList items =>
                       join (map (fun item => match item with
                                              | Node _ _ => hash_updates item
                                              | _ => EmptyString
                                              end) items)
                   | Node _ _ => hash_updates (snd fv)
                   | Const _ => EmptyString
                   end) fields)
  | _ => EmptyString
  end.

(** [ASTHasher().visit(node)]: the hex digest of a fresh MD5 object after
    those updates. *)
Definition ASTHasher_visit (node : value) : string :=
  MD5.hexdigest (hash_updates node).

(** *** [CodeChangeAnalyzer] *)

(** The state set up by [__init__], from the two parsed modules. *)
Record CodeChangeAnalyzer : Type := mkAnalyzer {
  old_ast : value;
  new_ast : value;
  old_visitor : ASTVisitor.t;
  new_visitor : ASTVisitor.t
}.

Definition __init__ (old_tree new_tree : value) : CodeChangeAnalyzer :=
  {| old_ast := old_tree;
     new_ast := new_tree;
     old_visitor := ASTVisitor.visit ASTVisitor.init old_tree;
     new_visitor := ASTVisitor.visit ASTVisitor.init new_tree |}.

(** [d[key]] for a key of [d]. *)
Definition item (d : gmap string value) (key : string) : value :=
  match d !! key with Some v => v | None => Const CNone end.

Fixpoint _compare_ast_nodes (node1 node2 : value) {struct node1} : bool :=
  match node1 with
  | Node cls1 fields1 =>
      if negb (String.eqb cls1 (class_name_of node2)) then false
      else
        forallb
          (fun fv : string * value =>
             let value1 := snd fv in
             let value2 := getattr node2 (fst fv) in
             match value1, value2 with
             | Node _ _, Node _ _ => _compare_ast_nodes value1 value2
             | PyList items1, PyList items2 =>
                 if negb (Nat.eqb (length items1) (length items2)) then false
                 else
                   (fix zipped (l1 l2 : list value) {struct l1} : bool :=
                      match l1, l2 with
                      | item1 :: l1', item2 :: l2' =>
                          (match item1, item2 with
                           | Node _ _, Node _ _ => _compare_ast_nodes item1 item2
                           | _, _ => py_eq item1 item2
                           end) && zipped l1' l2'
                      | _, _ => true
                      end) items1 items2
             | _, _ => py_eq value1 value2
             end)
          fields1
  | _ => false
  end.

Definition _has_signature_change (old_func new_func : value) : bool :=
  negb (_compare_ast_nodes (args_of old_func) (args_of new_func)).

Definition _analyze_body_change (old_body new_body : list value) : ChangeType :=
  let old_hashes := map ASTHasher_visit old_body in
  let new_hashes := map ASTHasher_visit new_body in
  if bool_decide (old_hashes = new_hashes) then ChangeType_default
  else
    let old_set : gset string := list_to_set old_hashes in
    let new_set : gset string := list_to_set new_hashes in
    if negb (Nat.eqb (size old_set) (size new_set)) then
      {| structural := true; minor_edit := false; rearrangement := false |}
    else if bool_decide (old_set ≠ new_set) then
      {| structural := false; minor_edit := true; rearrangement := false |}
    else
      {| structural := false; minor_edit := false; rearrangement := true |}.

(** The names of the [FunctionDef] nodes yielded by [ast.walk(func)] other
    than [func] itself.  Nodes compare by identity, and the root, which
    [ast.walk] yields first, is the only node of its tree identical to it. *)
Definition nested_names (func : value) : gset string :=
  list_to_set (map name_of (filter (fun n => is_FunctionDef n = true)
                                   (tail (walk func)))).

Definition _has_nested_function_change (old_func new_func : value) : bool :=
  bool_decide (nested_names old_func ≠ nested_names new_func).

Definition _analyze_function_change (self : CodeChangeAnalyzer)
    (func_name : string) : FunctionChange.t :=
  let old_func := item (ASTVisitor.functions (old_visitor self)) func_name in
  let new_func := item (ASTVisitor.functions (new_visitor self)) func_name in
  let signature_change := _has_signature_change old_func new_func in
  let body_change := _analyze_body_change (body_of old_func) (body_of new_func) in
  let nested_function_change := _has_nested_function_change old_func new_func in
  FunctionChange.mk func_name signature_change body_change nested_function_change.

(** [{node.name: node for node in ast.walk(cls) if isinstance(node,
    ast.FunctionDef)}]: a later node of the walk replaces an earlier one of
    the same name. *)
Definition methods_of (cls : value) : gmap string value :=
  fold_left (fun (d : gmap string value) (node : value) =>
               if is_FunctionDef node then <[name_of node := node]> d else d)
            (walk cls) ∅.

(** The body of the inner loop for one method name. *)
Definition method_change (class_name method_name : string)
    (old_methods new_methods : gmap string value) : list ClassMethodChange.t :=
  let old_method := item old_methods method_name in
  let new_method := item new_methods method_name in
  let signature_change := _has_signature_change old_method new_method in
  let body_change :=
    _analyze_body_change (body_of old_method) (body_of new_method) in
  if signature_change || negb (ChangeType_eqb body_change ChangeType_default)
  then [ClassMethodChange.mk class_name method_name signature_change body_change]
  else [].

(** Python iterates a set in an order of its own; the model takes the
    order of [elements]. *)
Definition _analyze_class_method_changes (self : CodeChangeAnalyzer)
    : list ClassMethodChange.t :=
  let old_classes := ASTVisitor.classes (old_visitor self) in
  let new_classes := ASTVisitor.classes (new_visitor self) in
  flat_map
    (fun class_name =>
       let old_class := item old_classes class_name in
       let new_class := item new_classes class_name in
       let old_methods := methods_of old_class in
       let new_methods := methods_of new_class in
       flat_map (fun method_name =>
                   method_change class_name method_name old_methods new_methods)
                (elements (dom old_methods ∩ dom new_methods)))
    (elements (dom old_classes ∩ dom new_classes)).

Definition analyze_changes (self : CodeChangeAnalyzer) : ChangeAnalysis :=
  let old_names := dom (ASTVisitor.functions (old_visitor self)) in
  let new_names := dom (ASTVisitor.functions (new_visitor self)) in
  {| added_functions := elements (new_names ∖ old_names);
     removed_functions := elements (old_names ∖ new_names);
     function_changes :=
       map (_analyze_function_change self) (elements (old_names ∩ new_names));
     class_method_changes := _analyze_class_method_changes self |}.

End astTest.

(** ** Python string operations used by the line scorer (ASCII text) *)

Module PyStr.

(** The ASCII characters [str.strip()] removes. *)
Definition is_space (c : ascii) : bool :=
  let n := nat_of_ascii c in
  (Nat.leb 9 n && Nat.leb n 13) || (Nat.leb 28 n && Nat.leb n 32).

Fixpoint lstrip (s : string) : string :=
  match s with
  | String c s' => if is_space c then lstrip s' else s
  | EmptyString => EmptyString
  end.

Definition rstrip (s : string) : string := String.rev (lstrip (String.rev s)).

(** [s.strip()]. *)
Definition strip (s : string) : string := rstrip (lstrip s).

(** [s.startswith(p)]. *)
Definition startswith (s p : string) : bool := String.prefix p s.

(** [sub in s]. *)
Fixpoint contains (sub s : string) : bool :=
  String.prefix sub s
  || match s with
     | String _ s' => contains sub s'
     | EmptyString => false
     end.

(** [s[1:]]. *)
Definition from1 (s : string) : string :=
  match s with String _ s' => s' | EmptyString => EmptyString end.

(** [s.split(sep)] for a one-character separator; [cur] holds the piece
    being read, reversed. *)
Fixpoint split_go (sep : ascii) (cur : string) (s : string) : list string :=
  match s with
  | EmptyString => [String.rev cur]
  | String c s' =>
      if Ascii.eqb c sep then String.rev cur :: split_go sep EmptyString s'
      else split_go sep (String c cur) s'
  end.

Definition split (sep : ascii) (s : string) : list string :=
  split_go sep EmptyString s.

(** [any(keyword in s for keyword in keywords)]. *)
Definition any_in (keywords : list string) (s : string) : bool :=
  existsb (fun keyword => contains keyword s) keywords.

End PyStr.

(** ** [ast2.py]: the line-scorer variant *)

(** What a call returns: a value, or the exception it raises. *)
Inductive exn : Type :=
| AttributeError (attr : string).

Inductive result (A : Type) : Type :=
| Ok (a : A)
| Raise (e : exn).

Arguments Ok {A} a.
Arguments Raise {A} e.

Definition bind {A B : Type} (r : result A) (k : A -> result B) : result B :=
  match r with
  | Ok a => k a
  | Raise e => Raise e
  end.

Module ast2.
Import Py PyStr.

(** [class ChangeType(BaseModel)]. *)
Record ChangeType : Type := mkChangeType {
  type : string;
  description : string;
  priority : Z
}.

Module FunctionChange.
Record t : Type := mk {
  name : string;
  signature_change : option ChangeType;
  body_changes : list ChangeType;
  nested_function_change : option ChangeType
}.
End FunctionChange.

Module ClassMethodChange.
Record t : Type := mk {
  class_name : string;
  method_name : string;
  signature_change : option ChangeType;
  body_changes : list ChangeType
}.
End ClassMethodChange.

Record ChangeAnalysis : Type := mkChangeAnalysis {
  added_functions : list string;
  removed_functions : list string;
  changed_functions : list FunctionChange.t;
  changed_class_methods : list ClassMethodChange.t
}.

Record CodeChangeAnalyzer : Type := mkAnalyzer {
  old_ast : value;
  new_ast : value;
  old_visitor : ASTVisitor.t;
  new_visitor : ASTVisitor.t
}.

Definition __init__ (old_tree new_tree : value) : CodeChangeAnalyzer :=
  {| old_ast := old_tree;
     new_ast := new_tree;
     old_visitor := ASTVisitor.visit ASTVisitor.init old_tree;
     new_visitor := ASTVisitor.visit ASTVisitor.init new_tree |}.

Definition item (d : gmap string value) (key : string) : value :=
  match d !! key with Some v => v | None => Const CNone end.

(** The class body defines no [_analyze_function_change]: the
    [FunctionChange(...)] construction that would end such a method sits,
    unreachable, after the [return] of [_has_significant_changes].
    Evaluating [self._analyze_function_change] therefore raises. *)
Definition _analyze_function_change (self : CodeChangeAnalyzer)
    (func_name : string) : result FunctionChange.t :=
  Raise (AttributeError "_analyze_function_change").

(** [x is not None]. *)
Definition is_not_None {A : Type} (x : option A) : bool :=
  match x with Some _ => true | None => false end.

Definition _has_significant_changes (change : FunctionChange.t) : bool :=
  is_not_None (FunctionChange.signature_change change)
  || Nat.ltb 0 (length (FunctionChange.body_changes change))
  || is_not_None (FunctionChange.nested_function_change change).

Definition _categorize_change (line : string) : ChangeType :=
  let stripped_line := strip line in
  if startswith stripped_line "#" then
    mkChangeType "minor" "Comment changed" 1
  else if startswith stripped_line "import " || startswith stripped_line "from " then
    mkChangeType "significant" "Import statement changed" 7
  else if String.eqb stripped_line EmptyString then
    mkChangeType "minor" "Whitespace change" 1
  else if contains "=" stripped_line
          && negb (any_in ["if"; "for"; "while"; "def"; "class"] stripped_line) then
    mkChangeType "minor" "Variable assignment changed" 3
  else if any_in ["if"; "else"; "elif"; "for"; "while"; "try"; "except"; "with"]
                 stripped_line then
    mkChangeType "major" "Control flow changed" 9
  else if startswith stripped_line "def " || startswith stripped_line "class " then
    mkChangeType "major" "Function or class definition changed" 10
  else
    mkChangeType "significant" "Code logic changed" 5.

(** The loop over [diff[2:]]: each line that starts with [+] or [-] is
    scored without its first character. *)
Definition score_diff (diff : list string) : list ChangeType :=
  flat_map (fun line =>
              if startswith line "+" || startswith line "-"
              then [_categorize_change (from1 line)]
              else [])
           (skipn 2 diff).

Section Library.

(** [ast.dump], [ast.unparse] and [difflib.unified_diff(a, b, n=0)]. *)
Variable dump : value -> string.
Variable unparse : value -> string.
Variable unified_diff : list string -> list string -> list string.

Definition _analyze_signature_change (old_func new_func : value)
    : option ChangeType :=
  let old_args := dump (args_of old_func) in
  let new_args := dump (args_of new_func) in
  if negb (String.eqb old_args new_args) then
    Some (mkChangeType "significant" "Function signature changed" 8)
  else None.

Definition _analyze_body_changes (old_func new_func : value)
    : list ChangeType :=
  let old_body := split "010" (unparse old_func) in
  let new_body := split "010" (unparse new_func) in
  score_diff (unified_diff old_body new_body).

Definition nested_names (func : value) : gset string :=
  list_to_set (map name_of (filter (fun n => is_FunctionDef n = true)
                                   (tail (walk func)))).

Definition _analyze_nested_function_change (old_func new_func : value)
    : option ChangeType :=
  if bool_decide (nested_names old_func ≠ nested_names new_func) then
    Some (mkChangeType "major" "Nested function structure changed" 9)
  else None.

Definition methods_of (cls : value) : gmap string value :=
  fold_left (fun (d : gmap string value) (node : value) =>
               if is_FunctionDef node then <[name_of node := node]> d else d)
            (walk cls) ∅.

Definition method_change (class_name method_name : string)
    (old_methods new_methods : gmap string value) : list ClassMethodChange.t :=
  let old_method := item old_methods method_name in
  let new_method := item new_methods method_name in
  let signature_change := _analyze_signature_change old_method new_method in
  let body_changes := _analyze_body_changes old_method new_method in
  if is_not_None signature_change || Nat.ltb 0 (length body_changes)
  then [ClassMethodChange.mk class_name method_name signature_change body_changes]
  else [].

Definition _analyze_class_method_changes (self : CodeChangeAnalyzer)
    : list ClassMethodChange.t :=
  let old_classes := ASTVisitor.classes (old_visitor self) in
  let new_classes := ASTVisitor.classes (new_visitor self) in
  flat_map
    (fun class_name =>
       let old_class := item old_classes class_name in
       let new_class := item new_classes class_name in
       let old_methods := methods_of old_class in
       let new_methods := methods_of new_class in
       flat_map (fun method_name =>
                   method_change class_name method_name old_methods new_methods)
                (elements (dom old_methods ∩ dom new_methods)))
    (elements (dom old_classes ∩ dom new_classes)).

(** The [for func_name in ...] loop of [analyze_changes]; [changed] is
    [changes.changed_functions] so far. *)
Fixpoint for_func_name (self : CodeChangeAnalyzer) (names : list string)
    (changed : list FunctionChange.t) : result (list FunctionChange.t) :=
  match names with
  | [] => Ok changed
  | func_name :: names' =>
      bind (_analyze_function_change self func_name) (fun function_change =>
      for_func_name self names'
        (if _has_significant_changes function_change
         then changed ++ [function_change] else changed))
  end.

Definition analyze_changes (self : CodeChangeAnalyzer) : result ChangeAnalysis :=
  let old_names := dom (ASTVisitor.functions (old_visitor self)) in
  let new_names := dom (ASTVisitor.functions (new_visitor self)) in
  let added := elements (new_names ∖ old_names) in
  let removed := elements (old_names ∖ new_names) in
  bind (for_func_name self (elements (old_names ∩ new_names)) []) (fun changed =>
  Ok {| added_functions := added;
        removed_functions := removed;
        changed_functions := changed;
        changed_class_methods := _analyze_class_method_changes self |}).

End Library.

End ast2.

(** ** Concrete programs used below, as [ast.parse] returns them *)

Module Scenario.
Import Py Syntax.

(** [def f(): pass] *)
Definition def_f : value := FunctionDef "f" (arguments [] []) [Pass].

Definition module_f : value := Module_ [def_f].

(** [def unchanged_function(): pass], from the example of [ast2.py]. *)
Definition module_unchanged : value :=
  Module_ [FunctionDef "unchanged_function" (arguments [] []) [Pass]].

(** [print(item)] *)
Definition print_item : value :=
  Expr (Call (Name "print" Load) [Name "item" Load] []).

(** [def process_data(data):] with the body [for item in data: print(item)]. *)
Definition for_loop : value :=
  For (Name "item" Store) (Name "data" Load) [print_item] [].

Definition old_process_data : value :=
  FunctionDef "process_data" (arguments [arg "data"] []) [for_loop].

(** [def process_data(data):] with the body
    [while data: item = data.pop(); print(item)]. *)
Definition while_loop : value :=
  While (Name "data" Load)
        [Assign [Name "item" Store]
                (Call (Attribute (Name "data" Load) "pop" Load) [] []);
         print_item] [].

Definition new_process_data : value :=
  FunctionDef "process_data" (arguments [arg "data"] []) [while_loop].

(** [ast.unparse] of the two versions of [process_data], and the unified
    diff with no context of their lines. *)
Definition old_process_data_text : string :=
  "def process_data(data):
    for item in data:
        print(item)".

Definition new_process_data_text : string :=
  "def process_data(data):
    while data:
        item = data.pop()
        print(item)".

Definition process_data_diff : list string :=
  ["--- 
"; "+++ 
"; "@@ -2 +2,2 @@
"; "-    for item in data:"; "+    while data:"; "+        item = data.pop()"].

(** [x = 1] and [y = 2] *)
Definition assign_x : value := Assign [Name "x" Store] (Constant (CInt 1)).
Definition assign_y : value := Assign [Name "y" Store] (Constant (CInt 2)).

(** [if a: b; c] (two statements in the branch) and [if a: b else: c]. *)
Definition expr_name (id : string) : value := Expr (Name id Load).

Definition if_two : value :=
  If (Name "a" Load) [expr_name "b"; expr_name "c"] [].

Definition if_else : value :=
  If (Name "a" Load) [expr_name "b"] [expr_name "c"].

(** [if a: b], against the bare statement [b]. *)
Definition if_b : value := If (Name "a" Load) [expr_name "b"] [].

(** [def f(x=1): pass] and [def f(x=True): pass] *)
Definition f_default (c : const) : value :=
  FunctionDef "f" (arguments [arg "x"] [Constant c]) [Pass].

(** A module-level [f] followed by a class with a method [f]:
    [def f(): pass] and [class C:] with [def f(self): return 1]. *)
Definition method_f : value :=
  FunctionDef "f" (arguments [arg "self"] []) [Return (Constant (CInt 1))].

Definition class_C : value := ClassDef "C" [method_f].

Definition shadow_module : value := Module_ [def_f; class_C].

(** The answers of [ast.unparse] and of [difflib.unified_diff(a, b, n=0)]
    on the two versions of [process_data]. *)
Definition unparse_process_data (func : value) : string :=
  if String.eqb (class_name_of (hd (Const CNone) (body_of func))) "For"
  then old_process_data_text else new_process_data_text.

Definition diff_process_data (a b : list string) : list string :=
  if bool_decide (a = b) then [] else process_data_diff.

End Scenario.

(** ** Induction over syntax trees *)

Module Induction.
Import Py.

Section value_induction.
Variable Q : value -> Prop.
Hypothesis HConst : forall c, Q (Const c).
Hypothesis HList : forall items, Forall Q items -> Q (PyList items).
Hypothesis HNode : forall cls fs,
    Forall (fun fv : string * value => Q (snd fv)) fs -> Q (Node cls fs).

Fixpoint value_induction (v : value) : Q v :=
    match v with
    | Const c => HConst c
    | PyList items =>
        HList items
          ((fix go (l : list value) : Forall Q l :=
              match l with
              | [] => @List.Forall_nil _ Q
              | x :: l' => @List.Forall_cons _ Q x l' (value_induction x) (go l')
              end) items)
    | Node cls fs =>
        HNode cls fs
          ((fix go (l : list (string * value))
              : Forall (fun fv : string * value => Q (snd fv)) l :=
              match l with
              | [] => @List.Forall_nil _ _
              | fv :: l' =>
                  @List.Forall_cons _ (fun fv : string * value => Q (snd fv)) fv l'
                    (match fv as p return Q (snd p) with
                     | (_, w) => value_induction w
                     end) (go l')
              end) fs)
    end.
End value_induction.

(** What an induction step on a node may assume of a field: the property
    of the field's value and, when the value is a list, of its items. *)
Definition field_ok (P : value -> Prop) (fv : string * value) : Prop :=
  P (snd fv) /\
  match snd fv with PyList items => Forall P items | _ => True end.

End Induction.

(** ** Vocabulary of the statements *)

Module Spec.
Import Py.

(** The ordered sequence of statement fingerprints of a body. *)
Definition fingerprints (body : list value) : list string :=
  map astTest.ASTHasher_visit body.

(** The number of distinct fingerprints of a sequence. *)
Definition distinct (l : list string) : nat := length (remove_dups l).

(** Two sequences hold the same set of fingerprints. *)
Definition same_set (l1 l2 : list string) : Prop :=
  forall h, In h l1 <-> In h l2.

(** The four body severities of [astTest.py]. *)
Definition unchanged : astTest.ChangeType := astTest.mkChangeType false false false.
Definition structural : astTest.ChangeType := astTest.mkChangeType true false false.
Definition minor_edit : astTest.ChangeType := astTest.mkChangeType false true false.
Definition rearrangement : astTest.ChangeType := astTest.mkChangeType false false true.

(** The class names of the nodes of a subtree, in pre-order. *)
Definition class_names (v : value) : list string :=
  map class_name_of (preorder v).

(** Two values agree up to their scalars: the same classes, the same
    field names, lists of the same length, and scalars of any content in
    the same places. *)
Fixpoint same_shape (a b : value) {struct a} : bool :=
  match a, b with
  | Const _, Const _ => true
  | Node cls1 fs1, Node cls2 fs2 =>
      String.eqb cls1 cls2
      && (fix fields (l1 l2 : list (string * value)) {struct l1} : bool :=
            match l1, l2 with
            | [], [] => true
            | fv1 :: l1', fv2 :: l2' =>
                String.eqb (fst fv1) (fst fv2)
                && same_shape (snd fv1) (snd fv2) && fields l1' l2'
            | _, _ => false
            end) fs1 fs2
  | PyList l1, PyList l2 =>
      (fix items (l1 l2 : list value) {struct l1} : bool :=
         match l1, l2 with
         | [], [] => true
         | x1 :: l1', x2 :: l2' => same_shape x1 x2 && items l1' l2'
         | _, _ => false
         end) l1 l2
  | _, _ => false
  end.

(** The definitions of a given name among a list of nodes. *)
Definition named (is_def : value -> bool) (name : string) (l : list value)
    : list value :=
  List.filter (fun n => is_def n && String.eqb (name_of n) name) l.

(** A tree defines a function [name] when one of its nodes is a
    [FunctionDef] of that name. *)
Definition defines_function (tree : value) (name : string) : Prop :=
  exists node, In node (preorder tree)
               /\ is_FunctionDef node = true /\ name_of node = name.

End Spec.

(** ** Vocabulary of the further properties *)

Module Spec2.
Import Py.

(** A node of the tree, other than the root, is a [FunctionDef] named
    [name]. *)
Definition defines_nested (func : value) (name : string) : Prop :=
  exists node, In node (tail (preorder func))
               /\ is_FunctionDef node = true /\ name_of node = name.

(** No string occurs twice in the list. *)
Fixpoint unique (l : list string) : bool :=
  match l with
  | [] => true
  | x :: l' => negb (existsb (String.eqb x) l') && unique l'
  end.

(** A node as the parser builds it: its field names are distinct, a field
    holds a scalar, a node of the same kind or a list, and a list holds
    scalars and such nodes, never a list. *)
Fixpoint well_formed (v : value) : bool :=
  match v with
  | Node _ fs =>
      unique (map fst fs)
      && forallb
           (fun fv : string * value =>
              match snd fv with
              | Const _ => true
              | Node _ _ => well_formed (snd fv)
              | PyList items =>
                  forallb (fun it => match it with
                                     | Const _ => true
                                     | Node _ _ => well_formed it
                                     | PyList _ => false
                                     end) items
              end) fs
  | _ => false
  end.

(** Every character of the string is one that [str.strip] removes. *)
Fixpoint all_space (s : string) : bool :=
  match s with
  | EmptyString => true
  | String c s' => PyStr.is_space c && all_space s'
  end.

End Spec2.

(** * Properties *)

Import Py Syntax Induction Spec.
Import Spec2.

(** ** Test vectors of RFC 1321 *)

Example md5_t1 : MD5.hexdigest EmptyString = "d41d8cd98f00b204e9800998ecf8427e".
Proof. vm_compute. reflexivity. Qed.
Example md5_t2 : MD5.hexdigest "abc" = "900150983cd24fb0d6963f7d28e17f72".
Proof. vm_compute. reflexivity. Qed.
Example md5_t3 : MD5.hexdigest "message digest" = "f96b697d7cb7938d525a2f31aaf161d0".
Proof. vm_compute. reflexivity. Qed.
Example md5_t4 : MD5.hexdigest "12345678901234567890123456789012345678901234567890123456789012345678901234567890" = "57edf4a22be3c955ac49da2e2107b67a".
Proof. vm_compute. reflexivity. Qed.

Lemma node_induction (P : value -> Prop) :
  (forall c, P (Const c)) ->
  (forall items, P (PyList items)) ->
  (forall cls fs, Forall (field_ok P) fs -> P (Node cls fs)) ->
  forall v, P v.
Proof.
  intros HC HL HN v.
  assert (H : field_ok P (EmptyString, v)); [|exact (proj1 H)].
  induction v as [c|items IH|cls fs IH] using value_induction; split; simpl; auto.
  eapply Forall_impl; [exact IH|]. intros x Hx. exact (proj1 Hx).
Qed.

(** ** [ast.walk] yields every node of the tree *)

Section Walk.

Lemma flat_map_nodes_filter (items : list value) :
  flat_map (fun it => match it with Node _ _ => preorder it | _ => [] end) items
  = flat_map preorder (filter (fun it => is_AST it = true) items).
Proof.
  induction items as [|x items IH]; [reflexivity|].
  rewrite filter_cons. destruct x as [c|cls fs|l]; cbn [flat_map is_AST].
  - rewrite decide_False by discriminate. exact IH.
  - rewrite decide_True by reflexivity. cbn [flat_map]. rewrite IH. reflexivity.
  - rewrite decide_False by discriminate. exact IH.
Qed.

Lemma flat_map_flat_map {A B C : Type} (f : A -> list B) (g : B -> list C)
    (l : list A) :
  flat_map g (flat_map f l) = flat_map (fun x => flat_map g (f x)) l.
Proof.
  induction l as [|x l IH]; [reflexivity|].
  cbn [flat_map]. rewrite flat_map_app, IH. reflexivity.
Qed.

(** The pre-order of a node is the node, then the pre-orders of its
    children. *)
Lemma preorder_children (cls : string) (fs : list (string * value)) :
  preorder (Node cls fs)
  = Node cls fs :: flat_map preorder (iter_child_nodes (Node cls fs)).
Proof.
  unfold iter_child_nodes. cbn [preorder iter_fields]. f_equal.
  rewrite flat_map_flat_map. apply flat_map_ext. intros [f v]. cbn [snd].
  destruct v as [c|cls' fs'|items]; cbn [flat_map].
  - reflexivity.
  - rewrite app_nil_r. reflexivity.
  - apply flat_map_nodes_filter.
Qed.

Lemma iter_child_nodes_AST (node : value) :
  Forall (fun n => is_AST n = true) (iter_child_nodes node).
Proof.
  unfold iter_child_nodes. apply Forall_flat_map, List.Forall_forall.
  intros [f v] _. cbn [snd]. destruct v as [c|cls fs|items].
  - constructor.
  - constructor; [reflexivity|constructor].
  - apply List.Forall_forall. intros x Hx.
    apply (proj2 (list_elem_of_In _ _)) in Hx.
    apply list_elem_of_filter in Hx. exact (proj1 Hx).
Qed.

(** With enough fuel for the nodes still to come, the queue yields them
    all. *)
Lemma walk_queue_preorder (fuel : nat) :
  forall todo,
    Forall (fun n => is_AST n = true) todo ->
    length (flat_map preorder todo) <= fuel ->
    Permutation (walk_queue fuel todo) (flat_map preorder todo).
Proof.
  induction fuel as [|fuel IH]; intros todo Hast Hlen.
  - destruct todo as [|node rest]; [constructor|].
    apply Forall_cons_1 in Hast. destruct Hast as [Hn _].
    destruct node; try discriminate Hn.
    cbn [flat_map] in Hlen. rewrite preorder_children in Hlen.
    cbn [app length] in Hlen. lia.
  - destruct todo as [|node rest]; [constructor|].
    apply Forall_cons_1 in Hast. destruct Hast as [Hn Hrest].
    destruct node as [c|cls fs|items]; try discriminate Hn.
    cbn [walk_queue flat_map] in Hlen |- *.
    rewrite preorder_children in Hlen |- *.
    cbn [app length] in Hlen |- *. rewrite length_app in Hlen.
    constructor.
    rewrite IH.
    + rewrite flat_map_app. apply Permutation_app_comm.
    + apply Forall_app. split; [exact Hrest|apply iter_child_nodes_AST].
    + rewrite flat_map_app, length_app. lia.
Qed.

Lemma preorder_length_weight (v : value) : length (preorder v) <= weight v.
Proof.
  induction v as [c|items|cls fs IH] using node_induction;
    [cbn; lia|cbn; lia|].
  cbn [preorder weight length]. apply le_n_S.
  induction IH as [|[f v] fs [Hv Hitems] _ IHfs]; [cbn; lia|].
  cbn [flat_map map list_sum snd] in *. rewrite length_app.
  apply Nat.add_le_mono; [|exact IHfs].
  destruct v as [c|cls' fs'|items]; [cbn; lia|exact Hv|].
  cbn [weight]. clear Hv.
  induction Hitems as [|x items Hx _ IHitems]; [cbn; lia|].
  cbn [flat_map map list_sum fold_right]. rewrite length_app.
  assert (length (match x with Node _ _ => preorder x | _ => [] end)
          <= weight x) by (destruct x; [cbn; lia|exact Hx|cbn; lia]).
  change (list_sum (weight x :: map weight items))
    with (weight x + list_sum (map weight items)).
  rewrite <- Nat.add_succ_r. apply Nat.add_le_mono; [exact H|exact IHitems].
Qed.

(** [ast.walk] reaches exactly the nodes of the tree: the fuel given to
    the queue is never exhausted before the queue is empty. *)
Lemma walk_preorder (node : value) :
  is_AST node = true -> Permutation (walk node) (preorder node).
Proof.
  intros Hn. unfold walk.
  rewrite walk_queue_preorder.
  - cbn [flat_map]. rewrite app_nil_r. reflexivity.
  - constructor; [exact Hn|constructor].
  - cbn [flat_map]. rewrite app_nil_r. apply preorder_length_weight.
Qed.

End Walk.

(** ** The symbol table builder *)

Section SymbolTable.
Import ASTVisitor.

Lemma fold_left_flat_map {A B S : Type} (f : S -> B -> S) (g : A -> list B)
    (h : S -> A -> S) (l : list A) :
  Forall (fun a => forall s, h s a = fold_left f (g a) s) l ->
  forall s, fold_left h l s = fold_left f (flat_map g l) s.
Proof.
  induction 1 as [|a l Ha _ IH]; intros s; simpl; [reflexivity|].
  rewrite fold_left_app, <- Ha. apply IH.
Qed.

(** The visit makes the assignments of the definition nodes in
    depth-first pre-order. *)
Lemma visit_preorder (node : value) :
  forall self,
    visit self node = fold_left (fun s n => record n s) (preorder node) self.
Proof.
  induction node as [c|items|cls fs IH] using node_induction;
    intros self; try reflexivity.
  cbn [visit preorder fold_left].
  generalize (record (Node cls fs) self) as s0.
  apply fold_left_flat_map.
  eapply Forall_impl; [exact IH|].
  intros [f v] [Hv Hitems] s. simpl in *.
  destruct v as [c|cls' fs'|items]; try reflexivity.
  - apply Hv.
  - revert s. apply fold_left_flat_map.
    eapply Forall_impl; [exact Hitems|].
    intros [c|cls' fs'|items'] Hx s; try reflexivity. apply Hx.
Qed.


Lemma class_name_exclusive (n : value) :
  is_FunctionDef n = true -> is_ClassDef n = false.
Proof.
  unfold is_FunctionDef, is_ClassDef. intros H.
  apply String.eqb_eq in H. rewrite H. reflexivity.
Qed.

Lemma last_cons_filter {A : Type} (x : A) (l : list A) :
  last (x :: l) = match last l with Some y => Some y | None => Some x end.
Proof. destruct l as [|y l]; [reflexivity|]. rewrite last_cons_cons. destruct (last (y :: l)) eqn:E; [reflexivity|]. apply last_None in E. discriminate. Qed.

Lemma fold_record_functions (name : string) (l : list value) :
  forall self,
    functions (fold_left (fun s n => record n s) l self) !! name =
    match last (named is_FunctionDef name l) with
    | Some n => Some n
    | None => functions self !! name
    end.
Proof.
  induction l as [|x l IH]; intros self; [reflexivity|].
  cbn [fold_left]. rewrite IH. unfold named at 2. cbn [List.filter].
  fold (named is_FunctionDef name l).
  unfold record.
  destruct (is_FunctionDef x) eqn:Hf; cbn [andb].
  - destruct (String.eqb (name_of x) name) eqn:Hn.
    + rewrite last_cons_filter. apply String.eqb_eq in Hn.
      destruct (last (named is_FunctionDef name l)); [reflexivity|].
      cbn. rewrite Hn. apply lookup_insert_eq.
    + apply String.eqb_neq in Hn.
      destruct (last (named is_FunctionDef name l)); [reflexivity|].
      cbn. apply lookup_insert_ne. exact Hn.
  - destruct (last (named is_FunctionDef name l)); [reflexivity|].
    destruct (is_ClassDef x); reflexivity.
Qed.

Lemma fold_record_classes (name : string) (l : list value) :
  forall self,
    classes (fold_left (fun s n => record n s) l self) !! name =
    match last (named is_ClassDef name l) with
    | Some n => Some n
    | None => classes self !! name
    end.
Proof.
  induction l as [|x l IH]; intros self; [reflexivity|].
  cbn [fold_left]. rewrite IH. unfold named at 2. cbn [List.filter].
  fold (named is_ClassDef name l).
  unfold record.
  destruct (is_FunctionDef x) eqn:Hf.
  - rewrite (class_name_exclusive x Hf). cbn [andb].
    destruct (last (named is_ClassDef name l)); reflexivity.
  - destruct (is_ClassDef x) eqn:Hc; cbn [andb].
    + destruct (String.eqb (name_of x) name) eqn:Hn.
      * rewrite last_cons_filter. apply String.eqb_eq in Hn.
        destruct (last (named is_ClassDef name l)); [reflexivity|].
        cbn. rewrite Hn. apply lookup_insert_eq.
      * apply String.eqb_neq in Hn.
        destruct (last (named is_ClassDef name l)); [reflexivity|].
        cbn. apply lookup_insert_ne. exact Hn.
    + destruct (last (named is_ClassDef name l)); reflexivity.
Qed.

(** The entry of a name is the last definition node of that name met in
    depth-first pre-order. *)
Lemma visit_functions_lookup (tree : value) (name : string) :
  functions (visit init tree) !! name
  = last (named is_FunctionDef name (preorder tree)).
Proof.
  rewrite visit_preorder, fold_record_functions.
  destruct (last (named is_FunctionDef name (preorder tree))); reflexivity.
Qed.

Lemma visit_classes_lookup (tree : value) (name : string) :
  classes (visit init tree) !! name
  = last (named is_ClassDef name (preorder tree)).
Proof.
  rewrite visit_preorder, fold_record_classes.
  destruct (last (named is_ClassDef name (preorder tree))); reflexivity.
Qed.

(** C9, amended: the builder keeps one table of functions and one of
    classes for the whole tree, whatever the scope: the entry of a name is
    the last definition node of that name in depth-first pre-order, so a
    later definition replaces an earlier one of the same name, in the same
    scope or in another. *)
Theorem symbol_table_last_write_wins (tree : value) (name : string) :
  functions (visit init tree) !! name
    = last (named is_FunctionDef name (preorder tree))
  /\ classes (visit init tree) !! name
    = last (named is_ClassDef name (preorder tree)).
Proof.
  split; [apply visit_functions_lookup|apply visit_classes_lookup].
Qed.

End SymbolTable.

(** ** The line-scorer variant stops on a shared function name *)

Section SharedName.
Import ASTVisitor.


Lemma defines_function_dom (tree : value) (name : string) :
  defines_function tree name <->
  name ∈ dom (functions (visit init tree)).
Proof.
  rewrite elem_of_dom, visit_functions_lookup.
  unfold defines_function, named. split.
  - intros (node & Hin & Hf & Hn).
    assert (Hmem : In node (List.filter
              (fun n => is_FunctionDef n && String.eqb (name_of n) name)
              (preorder tree))).
    { apply filter_In. split; [exact Hin|].
      rewrite Hf. apply String.eqb_eq in Hn. rewrite Hn. reflexivity. }
    destruct (last _) eqn:E; [eauto|].
    apply last_None in E. rewrite E in Hmem. destruct Hmem.
  - intros [node Hlast]. exists node.
    assert (Hmem : In node (List.filter
              (fun n => is_FunctionDef n && String.eqb (name_of n) name)
              (preorder tree))).
    { apply list_elem_of_In. eapply list_elem_of_lookup_2.
      rewrite last_lookup in Hlast. exact Hlast. }
    apply filter_In in Hmem. destruct Hmem as [Hin Hb].
    apply andb_true_iff in Hb. destruct Hb as [Hf Hn].
    apply String.eqb_eq in Hn. auto.
Qed.

Lemma for_func_name_raises (self : ast2.CodeChangeAnalyzer)
    (names : list string) (changed : list ast2.FunctionChange.t) :
  names <> [] ->
  ast2.for_func_name self names changed
    = Raise (AttributeError "_analyze_function_change").
Proof. destruct names; [congruence|reflexivity]. Qed.

Lemma for_func_name_nil (self : ast2.CodeChangeAnalyzer)
    (changed : list ast2.FunctionChange.t) :
  ast2.for_func_name self [] changed = Ok changed.
Proof. reflexivity. Qed.

End SharedName.

Section Reports.
Import ASTVisitor Scenario.

(** C2: in [ast2.py], whenever the old and the new tree define a function
    of the same name, [analyze_changes] raises [AttributeError] for the
    undefined [_analyze_function_change] and returns no report. *)
Theorem ast2_shared_function_raises
    (dump unparse : value -> string)
    (unified_diff : list string -> list string -> list string)
    (old_tree new_tree : value) (name : string) :
  defines_function old_tree name ->
  defines_function new_tree name ->
  ast2.analyze_changes dump unparse unified_diff
    (ast2.__init__ old_tree new_tree)
  = Raise (AttributeError "_analyze_function_change").
Proof.
  intros Hold Hnew.
  apply defines_function_dom in Hold, Hnew.
  unfold ast2.analyze_changes. cbn [ast2.old_visitor ast2.new_visitor ast2.__init__].
  rewrite for_func_name_raises; [reflexivity|].
  intros Hnil.
  assert (Hin : name ∈ elements
            (dom (functions (visit init old_tree))
             ∩ dom (functions (visit init new_tree)))).
  { apply elem_of_elements, elem_of_intersection. split; assumption. }
  rewrite Hnil in Hin. apply elem_of_nil in Hin. exact Hin.
Qed.

Lemma ast2_shared_function_raises_witness :
  defines_function module_f "f"
  /\ ast2.analyze_changes (fun _ => EmptyString) (fun _ => EmptyString) (fun _ _ => [])
       (ast2.__init__ module_f module_f)
     = Raise (AttributeError "_analyze_function_change").
Proof.
  assert (H : defines_function module_f "f").
  { exists def_f. split; [right; left; reflexivity|split; reflexivity]. }
  split; [exact H|].
  exact (ast2_shared_function_raises _ _ _ module_f module_f "f" H H).
Defined.

(** Without a shared function name the loop body never runs and a report
    is returned. *)
Lemma ast2_no_shared_function_returns
    (dump unparse : value -> string)
    (unified_diff : list string -> list string -> list string)
    (old_tree new_tree : value) :
  (forall name, defines_function old_tree name ->
                defines_function new_tree name -> False) ->
  exists report,
    ast2.analyze_changes dump unparse unified_diff
      (ast2.__init__ old_tree new_tree) = Ok report
    /\ ast2.changed_functions report = [].
Proof.
  intros Hnone.
  unfold ast2.analyze_changes. cbn [ast2.old_visitor ast2.new_visitor ast2.__init__].
  assert (Hempty : elements
            (dom (functions (visit init old_tree))
             ∩ dom (functions (visit init new_tree))) = []).
  { apply elements_empty_iff. intros name. split; [|intros []%elem_of_empty].
    intros Hin. exfalso.
    apply elem_of_intersection in Hin. destruct Hin as [Ho Hn].
    apply (Hnone name); apply defines_function_dom; assumption. }
  rewrite Hempty. cbn. eexists. split; reflexivity.
Qed.

(** [astTest.py] lists one record per shared function name, whatever the
    record holds. *)
Lemma astTest_function_changes_names (self : astTest.CodeChangeAnalyzer) :
  map astTest.FunctionChange.name
      (astTest.function_changes (astTest.analyze_changes self))
  = elements (dom (functions (astTest.old_visitor self))
              ∩ dom (functions (astTest.new_visitor self))).
Proof.
  unfold astTest.analyze_changes. cbn [astTest.function_changes].
  rewrite map_map. apply map_id.
Qed.

(** The method path keeps a record only when one of its two findings is
    set. *)
Lemma astTest_method_change_kept (class_name method_name : string)
    (old_methods new_methods : gmap string value)
    (r : astTest.ClassMethodChange.t) :
  In r (astTest.method_change class_name method_name old_methods new_methods) ->
  astTest.ClassMethodChange.signature_change r = true
  \/ astTest.ClassMethodChange.body_change r <> astTest.ChangeType_default.
Proof.
  unfold astTest.method_change.
  destruct (astTest._has_signature_change _ _) eqn:Hs; cbn [orb].
  - intros [<-|[]]. left. reflexivity.
  - destruct (astTest.ChangeType_eqb _ _) eqn:Hb; cbn [negb].
    + intros [].
    + intros [<-|[]]. right. cbn. intros Heq. rewrite Heq in Hb.
      discriminate Hb.
Qed.

(** C1: in [astTest.py] a function pair without any detected change is
    still listed.  Comparing [def f(): pass] with itself yields a record
    for [f] whose signature flag, body flags and nested flag are all
    unset. *)
Theorem astTest_lists_unchanged_function :
  astTest.function_changes
    (astTest.analyze_changes (astTest.__init__ module_f module_f))
  = [astTest.FunctionChange.mk "f" false astTest.ChangeType_default false].
Proof. vm_compute. reflexivity. Qed.

(** C5: comparing a module that defines a function with itself does not
    give an empty report: [astTest.py] lists the function among the
    changes, and [ast2.py] raises. *)
Theorem self_comparison_not_empty :
  astTest.analyze_changes (astTest.__init__ module_unchanged module_unchanged)
  = astTest.mkChangeAnalysis [] []
      [astTest.FunctionChange.mk "unchanged_function" false
         astTest.ChangeType_default false] []
  /\ forall (dump unparse : value -> string)
            (unified_diff : list string -> list string -> list string),
       ast2.analyze_changes dump unparse unified_diff
         (ast2.__init__ module_unchanged module_unchanged)
       = Raise (AttributeError "_analyze_function_change").
Proof.
  split; [vm_compute; reflexivity|].
  intros. reflexivity.
Qed.

(** C9, as stated, fails: the definition [f] of the module scope and the
    method [f] of class [C] share one entry, which holds the method. *)
Lemma method_displaces_module_function :
  In def_f (body_of shadow_module)
  /\ In class_C (body_of shadow_module)
  /\ In method_f (body_of class_C)
  /\ def_f <> method_f
  /\ functions (visit init shadow_module) = {[ "f" := method_f ]}.
Proof.
  split; [left; reflexivity|].
  split; [right; left; reflexivity|].
  split; [left; reflexivity|].
  split; [discriminate|].
  vm_compute. reflexivity.
Qed.

End Reports.

(** ** Body severity by fingerprint sets *)

Section BodyChange.
Import Scenario Spec.

Lemma size_list_to_set_distinct (l : list string) :
  size (list_to_set l : gset string) = distinct l.
Proof.
  unfold distinct.
  rewrite <- (size_list_to_set (C := gset string) (remove_dups l))
    by apply NoDup_remove_dups.
  f_equal. apply set_eq. intros h.
  rewrite !elem_of_list_to_set, elem_of_remove_dups. reflexivity.
Qed.

Lemma list_to_set_same_set (l1 l2 : list string) :
  (list_to_set l1 : gset string) = list_to_set l2 <-> same_set l1 l2.
Proof.
  unfold same_set. split.
  - intros Heq h. rewrite <- !list_elem_of_In.
    rewrite <- !(elem_of_list_to_set (C := gset string)), Heq. reflexivity.
  - intros Hs. apply set_eq. intros h.
    rewrite !elem_of_list_to_set, !list_elem_of_In. apply Hs.
Qed.

(** The four branches of [_analyze_body_change], read on the fingerprint
    sequences. *)
Lemma analyze_body_change_cases (old_body new_body : list value) :
  let old_hashes := fingerprints old_body in
  let new_hashes := fingerprints new_body in
  let change := astTest._analyze_body_change old_body new_body in
  (old_hashes = new_hashes -> change = unchanged)
  /\ (old_hashes <> new_hashes ->
      distinct old_hashes <> distinct new_hashes -> change = structural)
  /\ (old_hashes <> new_hashes ->
      distinct old_hashes = distinct new_hashes ->
      ~ same_set old_hashes new_hashes -> change = minor_edit)
  /\ (old_hashes <> new_hashes ->
      same_set old_hashes new_hashes -> change = rearrangement).
Proof.
  cbv zeta. unfold astTest._analyze_body_change, fingerprints.
  set (oh := map astTest.ASTHasher_visit old_body).
  set (nh := map astTest.ASTHasher_visit new_body).
  rewrite !size_list_to_set_distinct.
  repeat split.
  - intros Heq. rewrite bool_decide_eq_true_2 by exact Heq. reflexivity.
  - intros Hne Hd. rewrite bool_decide_eq_false_2 by exact Hne.
    apply Nat.eqb_neq in Hd. rewrite Hd. reflexivity.
  - intros Hne Hd Hs. rewrite bool_decide_eq_false_2 by exact Hne.
    apply Nat.eqb_eq in Hd. rewrite Hd. cbn [negb].
    rewrite bool_decide_eq_true_2; [reflexivity|].
    intros Heq. apply Hs, list_to_set_same_set, Heq.
  - intros Hne Hs. rewrite bool_decide_eq_false_2 by exact Hne.
    apply list_to_set_same_set in Hs.
    assert (Hd : distinct oh = distinct nh).
    { rewrite <- !size_list_to_set_distinct. f_equal. exact Hs. }
    apply Nat.eqb_eq in Hd. rewrite Hd. cbn [negb].
    rewrite bool_decide_eq_false_2; [reflexivity|].
    intros Hn. apply Hn. exact Hs.
Qed.

Lemma severities_distinct :
  unchanged <> structural /\ unchanged <> minor_edit
  /\ unchanged <> rearrangement /\ structural <> minor_edit
  /\ structural <> rearrangement /\ minor_edit <> rearrangement.
Proof. repeat split; discriminate. Qed.

(** C3, amended: the severity is [unchanged] exactly when the two
    fingerprint sequences are equal; otherwise [structural] exactly when
    the numbers of distinct fingerprints differ, [minor_edit] exactly when
    these numbers agree and the sets differ, and [rearrangement] exactly
    when the sets are equal, whether or not the multisets are. *)
Theorem body_change_severity (old_body new_body : list value) :
  let old_hashes := fingerprints old_body in
  let new_hashes := fingerprints new_body in
  let change := astTest._analyze_body_change old_body new_body in
  (change = unchanged <-> old_hashes = new_hashes)
  /\ (change = structural <->
      old_hashes <> new_hashes /\ distinct old_hashes <> distinct new_hashes)
  /\ (change = minor_edit <->
      old_hashes <> new_hashes /\ distinct old_hashes = distinct new_hashes
      /\ ~ same_set old_hashes new_hashes)
  /\ (change = rearrangement <->
      old_hashes <> new_hashes /\ same_set old_hashes new_hashes).
Proof.
  cbv zeta.
  destruct (analyze_body_change_cases old_body new_body) as (H1 & H2 & H3 & H4).
  cbv zeta in H1, H2, H3, H4.
  destruct severities_distinct as (D1 & D2 & D3 & D4 & D5 & D6).
  set (oh := fingerprints old_body) in *.
  set (nh := fingerprints new_body) in *.
  assert (Hsame : same_set oh nh -> distinct oh = distinct nh).
  { intros Hs. rewrite <- !size_list_to_set_distinct. f_equal.
    apply list_to_set_same_set, Hs. }
  destruct (decide (oh = nh)) as [He|He].
  { rewrite (H1 He). intuition congruence. }
  destruct (decide (distinct oh = distinct nh)) as [Hd|Hd].
  - destruct (decide ((list_to_set oh : gset string) = list_to_set nh)) as [Hs|Hs].
    + apply list_to_set_same_set in Hs. rewrite (H4 He Hs).
      intuition congruence.
    + assert (Hn : ~ same_set oh nh).
      { intros Hs'. apply Hs, list_to_set_same_set, Hs'. }
      rewrite (H3 He Hd Hn). intuition congruence.
  - rewrite (H2 He Hd). intuition congruence.
Qed.

(** C3, as stated, fails: [pass] against [pass; pass] is classified as a
    rearrangement although the two fingerprint sequences are not the same
    multiset. *)
Lemma rearrangement_not_same_multiset :
  astTest._analyze_body_change [Syntax.Pass] [Syntax.Pass; Syntax.Pass]
    = rearrangement
  /\ (Permutation (fingerprints [Syntax.Pass])
                  (fingerprints [Syntax.Pass; Syntax.Pass]) -> False).
Proof.
  split; [vm_compute; reflexivity|].
  intros Hp. apply Permutation_length in Hp. discriminate Hp.
Qed.

(** C8, amended: swapping the two statements of a body never gives
    [structural] or [minor_edit]; it gives [rearrangement] exactly when
    the two statements have different fingerprints, and [unchanged] when
    their fingerprints are equal. *)
Theorem swap_two_statements (s1 s2 : value) :
  let change := astTest._analyze_body_change [s1; s2] [s2; s1] in
  (change = rearrangement <->
     astTest.ASTHasher_visit s1 <> astTest.ASTHasher_visit s2)
  /\ (change = unchanged <->
      astTest.ASTHasher_visit s1 = astTest.ASTHasher_visit s2)
  /\ change <> structural /\ change <> minor_edit.
Proof.
  cbv zeta.
  destruct (analyze_body_change_cases [s1; s2] [s2; s1]) as (H1 & _ & _ & H4).
  cbv zeta in H1, H4. unfold fingerprints in H1, H4. cbn [map] in H1, H4.
  destruct severities_distinct as (D1 & D2 & D3 & D4 & D5 & D6).
  destruct (decide (astTest.ASTHasher_visit s1 = astTest.ASTHasher_visit s2))
    as [He|He].
  - rewrite H1 by (rewrite He; reflexivity).
    intuition congruence.
  - rewrite H4.
    + intuition congruence.
    + intros Heq. injection Heq as Heq _. contradiction.
    + intros h. cbn. tauto.
Qed.

(** C8, as stated, fails: [x = 1; y = 2] swapped to [y = 2; x = 1] is
    reported unchanged, the two assignments having the same fingerprint. *)
Lemma swap_same_fingerprint_unchanged :
  assign_x <> assign_y
  /\ astTest._analyze_body_change [assign_x; assign_y] [assign_y; assign_x]
     = unchanged.
Proof. split; [discriminate|vm_compute; reflexivity]. Qed.

(** C4, as stated, fails: each version of [process_data] has one top-level
    statement, so the numbers of distinct fingerprints agree and the
    severity is [minor_edit]. *)
Lemma process_data_not_structural :
  astTest._analyze_body_change (body_of old_process_data)
                               (body_of new_process_data) = minor_edit
  /\ astTest.structural
       (astTest._analyze_body_change (body_of old_process_data)
                                     (body_of new_process_data)) = false.
Proof. split; vm_compute; reflexivity. Qed.

(** C4, amended: for [process_data] the fingerprint-set method gives
    [minor_edit]; and when [ast.unparse] and [difflib.unified_diff] answer
    as they do on these two versions, the line scorer gives a major record
    for the removed [for] line and one for the added [while] line, then a
    minor one for the added assignment. *)
Theorem process_data_severity
    (unparse : value -> string)
    (unified_diff : list string -> list string -> list string) :
  unparse old_process_data = old_process_data_text ->
  unparse new_process_data = new_process_data_text ->
  unified_diff (PyStr.split "010" old_process_data_text)
               (PyStr.split "010" new_process_data_text) = process_data_diff ->
  astTest._analyze_body_change (body_of old_process_data)
                               (body_of new_process_data) = minor_edit
  /\ ast2._analyze_body_changes unparse unified_diff
       old_process_data new_process_data
     = [ast2.mkChangeType "major" "Control flow changed" 9;
        ast2.mkChangeType "major" "Control flow changed" 9;
        ast2.mkChangeType "minor" "Variable assignment changed" 3].
Proof.
  intros Hold Hnew Hdiff. split; [vm_compute; reflexivity|].
  unfold ast2._analyze_body_changes. rewrite Hold, Hnew, Hdiff.
  vm_compute. reflexivity.
Qed.

Lemma process_data_severity_witness :
  unparse_process_data old_process_data = old_process_data_text
  /\ unparse_process_data new_process_data = new_process_data_text
  /\ diff_process_data (PyStr.split "010" old_process_data_text)
                       (PyStr.split "010" new_process_data_text)
     = process_data_diff
  /\ astTest._analyze_body_change (body_of old_process_data)
                                  (body_of new_process_data) = minor_edit
  /\ ast2._analyze_body_changes unparse_process_data diff_process_data
       old_process_data new_process_data
     = [ast2.mkChangeType "major" "Control flow changed" 9;
        ast2.mkChangeType "major" "Control flow changed" 9;
        ast2.mkChangeType "minor" "Variable assignment changed" 3].
Proof.
  split; [reflexivity|]. split; [reflexivity|]. split; [vm_compute; reflexivity|].
  apply (process_data_severity unparse_process_data diff_process_data);
    vm_compute; reflexivity.
Defined.

End BodyChange.

(** ** Fingerprints *)

Section Fingerprint.
Import Scenario Spec.

Lemma append_assoc (x y z : string) : (x +:+ y) +:+ z = x +:+ y +:+ z.
Proof.
  induction x as [|c x IH]; [reflexivity|].
  change (String c ((x +:+ y) +:+ z) = String c (x +:+ y +:+ z)).
  f_equal. exact IH.
Qed.

Lemma join_app (l1 l2 : list string) :
  astTest.join (l1 ++ l2) = astTest.join l1 +:+ astTest.join l2.
Proof.
  induction l1 as [|x l1 IH]; [reflexivity|].
  change (astTest.join ((x :: l1) ++ l2)) with (x +:+ astTest.join (l1 ++ l2)).
  change (astTest.join (x :: l1)) with (x +:+ astTest.join l1).
  rewrite IH, append_assoc. reflexivity.
Qed.

Lemma join_map_flat_map {A : Type} (f : A -> list value) (g : A -> string)
    (l : list A) :
  Forall (fun a => g a = astTest.join (map class_name_of (f a))) l ->
  astTest.join (map g l)
  = astTest.join (map class_name_of (flat_map f l)).
Proof.
  induction 1 as [|a l Ha _ IH]; [reflexivity|].
  cbn [map flat_map]. rewrite map_app, join_app, <- IH, <- Ha. reflexivity.
Qed.

(** The bytes hashed for a node are the class names of its subtree in
    pre-order, one after the other. *)
Lemma hash_updates_class_names (v : value) :
  astTest.hash_updates v = astTest.join (class_names v).
Proof.
  unfold class_names.
  induction v as [c|items|cls fs IH] using node_induction; try reflexivity.
  cbn [astTest.hash_updates preorder map astTest.join fold_right].
  f_equal. apply join_map_flat_map.
  eapply Forall_impl; [exact IH|].
  intros [f v] [Hv Hitems]. cbn [snd] in *.
  destruct v as [c|cls' fs'|items]; try reflexivity.
  - exact Hv.
  - apply join_map_flat_map.
    eapply Forall_impl; [exact Hitems|].
    intros [c|cls' fs'|items'] Hx; try reflexivity. exact Hx.
Qed.

(** Values that agree up to their scalars feed the same bytes. *)
Lemma same_shape_hash_updates (a : value) :
  forall b, same_shape a b = true ->
            astTest.hash_updates a = astTest.hash_updates b.
Proof.
  induction a as [c|items|cls fs IH] using node_induction; intros b Hab.
  - destruct b; [reflexivity|discriminate|discriminate].
  - destruct b; [discriminate|discriminate|reflexivity].
  - destruct b as [c|cls2 fs2|items2]; [discriminate| |discriminate].
    cbn [same_shape] in Hab. apply andb_true_iff in Hab.
    destruct Hab as [Hcls Hfs]. apply String.eqb_eq in Hcls. subst cls2.
    cbn [astTest.hash_updates]. f_equal. f_equal.
    revert fs2 Hfs.
    induction IH as [|[f1 v1] fs [Hv Hitems] _ IHfs]; intros fs2 Hfs.
    + destruct fs2; [reflexivity|discriminate].
    + destruct fs2 as [|[f2 v2] fs2]; [discriminate|].
      apply andb_true_iff in Hfs. destruct Hfs as [Hhead Hrest].
      apply andb_true_iff in Hhead. destruct Hhead as [_ Hv12].
      cbn [map]. f_equal; [|apply IHfs; exact Hrest].
      cbn [snd] in *.
      destruct v1 as [c1|c1 g1|items1], v2 as [c2|c2 g2|items2];
        try discriminate Hv12; try reflexivity.
      * apply Hv. exact Hv12.
      * cbn [same_shape] in Hv12. f_equal. clear Hv.
        revert items2 Hv12.
        induction Hitems as [|x1 items1 Hx _ IHitems]; intros items2 H12.
        -- destruct items2; [reflexivity|discriminate].
        -- destruct items2 as [|x2 items2]; [discriminate|].
           apply andb_true_iff in H12. destruct H12 as [Hx12 Hrest12].
           cbn [map]. f_equal; [|apply IHitems; exact Hrest12].
           destruct x1, x2; try discriminate Hx12; try reflexivity.
           apply Hx. exact Hx12.
Qed.

(** C6, amended: two subtrees that differ only in scalars (identifier
    names, literal values) have equal fingerprints; the fingerprint is the
    MD5 digest of the class names of the subtree in pre-order, so two
    subtrees with the same class names in pre-order have equal fingerprints
    even when their nesting differs. *)
Theorem fingerprint_shape_blind (a b : value) :
  (same_shape a b = true ->
   astTest.ASTHasher_visit a = astTest.ASTHasher_visit b)
  /\ (class_names a = class_names b ->
      astTest.ASTHasher_visit a = astTest.ASTHasher_visit b)
  /\ astTest.ASTHasher_visit a = MD5.hexdigest (astTest.join (class_names a)).
Proof.
  unfold astTest.ASTHasher_visit. split; [|split].
  - intros H. rewrite (same_shape_hash_updates a b H). reflexivity.
  - intros H. rewrite !hash_updates_class_names, H. reflexivity.
  - rewrite hash_updates_class_names. reflexivity.
Qed.

Lemma fingerprint_shape_blind_witness :
  (same_shape assign_x assign_y = true
   /\ astTest.ASTHasher_visit assign_x = astTest.ASTHasher_visit assign_y)
  /\ (class_names if_two = class_names if_else
      /\ astTest.ASTHasher_visit if_two = astTest.ASTHasher_visit if_else).
Proof.
  split; split.
  - reflexivity.
  - exact (proj1 (fingerprint_shape_blind assign_x assign_y) eq_refl).
  - reflexivity.
  - exact (proj1 (proj2 (fingerprint_shape_blind if_two if_else)) eq_refl).
Defined.

(** C6, as stated, fails: [if a: b; c] and [if a: b else: c] differ in
    the structure of their node-valued fields and have the same
    fingerprint. *)
Lemma different_nesting_same_fingerprint :
  same_shape if_two if_else = false
  /\ length (body_of if_two) <> length (body_of if_else)
  /\ astTest.ASTHasher_visit if_two = astTest.ASTHasher_visit if_else.
Proof.
  split; [reflexivity|]. split; [discriminate|].
  unfold astTest.ASTHasher_visit. f_equal.
Qed.

(** Wrapping a statement in an [if] does change the fingerprint. *)
Example if_wrapped_fingerprint_differs :
  astTest.ASTHasher_visit if_b <> astTest.ASTHasher_visit (expr_name "b").
Proof. vm_compute. discriminate. Qed.

End Fingerprint.

(** ** Signature comparison *)

Section Signature.
Import Scenario Spec.

(** The flag is the negation of the field-wise comparison of the two
    [arguments] nodes. *)
Lemma signature_change_is_not_equal (old_func new_func : value) :
  astTest._has_signature_change old_func new_func
  = negb (astTest._compare_ast_nodes (args_of old_func) (args_of new_func)).
Proof. reflexivity. Qed.

(** A default value changed from one integer to another sets the flag. *)
Lemma default_int_change_detected (z1 z2 : Z) :
  z1 <> z2 ->
  astTest._has_signature_change (f_default (CInt z1)) (f_default (CInt z2))
  = true.
Proof.
  intros Hne. apply Z.eqb_neq in Hne.
  cbv -[Z.eqb]. rewrite Hne. reflexivity.
Qed.

(** C7: the default value of [x] changes from [1] to [True], the body is
    the same, and the signature flag stays unset: the two scalars are
    compared with [!=], and [1 != True] is false in Python. *)
Theorem default_int_to_bool_undetected :
  Syntax.Constant (CInt 1) <> Syntax.Constant (CBool true)
  /\ astTest._compare_ast_nodes (args_of (f_default (CInt 1)))
                                (args_of (f_default (CBool true))) = true
  /\ astTest._has_signature_change (f_default (CInt 1)) (f_default (CBool true))
     = false
  /\ astTest._analyze_body_change (body_of (f_default (CInt 1)))
                                  (body_of (f_default (CBool true)))
     = unchanged.
Proof.
  split; [discriminate|]. split; [reflexivity|]. split; [reflexivity|].
  vm_compute. reflexivity.
Qed.

End Signature.

(** ** The line scorer *)

Section LineScorer.
Import PyStr.

Lemma contains_nonempty (sub s : string) :
  sub <> EmptyString -> contains sub s = true -> String.eqb s EmptyString = false.
Proof.
  intros Hsub H. destruct s as [|c s]; [|reflexivity].
  destruct sub as [|d sub]; [congruence|discriminate H].
Qed.

Lemma prefix_cons (a c : ascii) (p s : string) :
  String.prefix (String a p) (String c s) = true ->
  a = c /\ String.prefix p s = true.
Proof.
  cbn [String.prefix]. destruct (ascii_dec a c) as [->|]; [auto|discriminate].
Qed.

Lemma prefix_contains (sub s : string) :
  String.prefix sub s = true -> contains sub s = true.
Proof. intros H. destruct s; cbn [contains]; rewrite H; reflexivity. Qed.

(** A line that contains [elif] contains [if]. *)
Lemma contains_elif_if (s : string) :
  contains "elif" s = true -> contains "if" s = true.
Proof.
  induction s as [|c s IH]; [discriminate|].
  cbn [contains]. intros H. apply orb_true_iff in H.
  apply orb_true_iff. right. destruct H as [H|H]; [|apply IH, H].
  apply prefix_cons in H. destruct H as [_ H].
  destruct s as [|c1 s]; [discriminate H|].
  apply prefix_cons in H. destruct H as [_ H].
  cbn [contains]. apply orb_true_iff. right.
  apply prefix_contains, H.
Qed.

(** C10, amended: a line whose trimmed text does not start with [#],
    [import ] or [from ], contains [=] and contains none of the
    control-flow keywords nor [def] nor [class] is classified as minor with
    priority 3; a line containing [if], [elif], [for], [while], [def] or
    [class] is not classified by the assignment rule. *)
Theorem assignment_rule (line : string) :
  let s := strip line in
  (startswith s "#" = false ->
   startswith s "import " = false ->
   startswith s "from " = false ->
   contains "=" s = true ->
   any_in ["if"; "else"; "elif"; "for"; "while"; "try"; "except"; "with"] s
     = false ->
   any_in ["def"; "class"] s = false ->
   ast2._categorize_change line
   = ast2.mkChangeType "minor" "Variable assignment changed" 3)
  /\ (any_in ["if"; "elif"; "for"; "while"; "def"; "class"] s = true ->
      ast2.description (ast2._categorize_change line)
      <> "Variable assignment changed").
Proof.
  cbv zeta. unfold ast2._categorize_change. cbv zeta.
  set (s := strip line). split.
  - intros Hc Hi Hf He Hk Hd.
    rewrite Hc, Hi, Hf, He. cbn [orb andb].
    rewrite (contains_nonempty "=" s) by (congruence || exact He).
    cbn [any_in existsb] in Hk, Hd |- *.
    repeat (apply orb_false_elim in Hk; destruct Hk as [? Hk]).
    repeat (apply orb_false_elim in Hd; destruct Hd as [? Hd]).
    repeat match goal with H : contains _ s = false |- _ => rewrite H; clear H end.
    reflexivity.
  - intros Hk.
    assert (Hex : any_in ["if"; "for"; "while"; "def"; "class"] s = true).
    { cbn [any_in existsb] in Hk |- *.
      repeat (apply orb_true_iff in Hk; destruct Hk as [Hk|Hk]);
        try discriminate Hk;
        try (apply contains_elif_if in Hk);
        rewrite Hk; repeat rewrite orb_true_r; reflexivity. }
    rewrite Hex. cbn [negb]. rewrite andb_false_r.
    repeat match goal with
           | |- context [if ?b then _ else _] => destruct b
           end; cbn; discriminate.
Qed.

Lemma assignment_rule_witness :
  ast2._categorize_change "        item = data.pop()"
  = ast2.mkChangeType "minor" "Variable assignment changed" 3
  /\ ast2.description (ast2._categorize_change "    for item in data:")
     <> "Variable assignment changed".
Proof.
  split.
  - apply (proj1 (assignment_rule "        item = data.pop()")); reflexivity.
  - apply (proj2 (assignment_rule "    for item in data:")); reflexivity.
Defined.

(** C10, as stated, fails on both counts: [def f(x=1):] contains [=] and
    no control-flow keyword, and is classified as major with priority 10;
    [with open(p, mode='r') as f:] contains the keyword [with] and is
    classified by the assignment rule. *)
Lemma assignment_rule_misses :
  (contains "=" (strip "def f(x=1):") = true
   /\ any_in ["if"; "else"; "elif"; "for"; "while"; "try"; "except"; "with"]
        (strip "def f(x=1):") = false
   /\ ast2._categorize_change "def f(x=1):"
      = ast2.mkChangeType "major" "Function or class definition changed" 10)
  /\ (any_in ["if"; "else"; "elif"; "for"; "while"; "try"; "except"; "with"]
        (strip "with open(p, mode='r') as f:") = true
      /\ ast2._categorize_change "with open(p, mode='r') as f:"
         = ast2.mkChangeType "minor" "Variable assignment changed" 3).
Proof. repeat split. Qed.

End LineScorer.

(** * Further properties of the two analysers *)

(** ** What the tables hold *)

Section Tables.
Import ASTVisitor Scenario.

Lemma last_named_sound (is_def : value -> bool) (name : string)
    (l : list value) (node : value) :
  last (named is_def name l) = Some node ->
  In node l /\ is_def node = true /\ name_of node = name.
Proof.
  intros Hlast. rewrite last_lookup in Hlast.
  apply list_elem_of_lookup_2, list_elem_of_In in Hlast.
  unfold named in Hlast. apply filter_In in Hlast.
  destruct Hlast as [Hin Hb]. apply andb_true_iff in Hb.
  destruct Hb as [Hd Hn]. apply String.eqb_eq in Hn. auto.
Qed.

Lemma named_complete (is_def : value -> bool) (name : string)
    (l : list value) (node : value) :
  In node l -> is_def node = true -> name_of node = name ->
  exists n, last (named is_def name l) = Some n.
Proof.
  intros Hin Hd Hn.
  assert (Hmem : In node (named is_def name l)).
  { apply filter_In. split; [exact Hin|].
    rewrite Hd. apply String.eqb_eq in Hn. rewrite Hn. reflexivity. }
  destruct (last (named is_def name l)) eqn:E; [eauto|].
  apply last_None in E. rewrite E in Hmem. destruct Hmem.
Qed.

(** The keys of the function table are the names of the [FunctionDef]
    nodes found anywhere in the tree, nested functions and methods included;
    every entry of either table is a definition node of the tree, of the
    table's kind, stored under its own name. *)
Theorem symbol_tables_sound (tree : value) (name : string) :
  (name ∈ dom (functions (visit init tree)) <-> defines_function tree name)
  /\ (forall node, functions (visit init tree) !! name = Some node ->
        In node (preorder tree)
        /\ is_FunctionDef node = true /\ name_of node = name)
  /\ (forall node, classes (visit init tree) !! name = Some node ->
        In node (preorder tree)
        /\ is_ClassDef node = true /\ name_of node = name).
Proof.
  split; [symmetry; apply defines_function_dom|]. split; intros node H.
  - rewrite visit_functions_lookup in H. apply (last_named_sound _ _ _ _ H).
  - rewrite visit_classes_lookup in H. apply (last_named_sound _ _ _ _ H).
Qed.

Lemma symbol_tables_sound_witness :
  "f" ∈ dom (functions (visit init shadow_module))
  /\ In method_f (preorder shadow_module)
  /\ is_FunctionDef method_f = true /\ name_of method_f = "f".
Proof.
  pose proof (symbol_tables_sound shadow_module "f") as (Hk & Hf & _).
  split.
  - apply Hk. exists def_f. split; [right; left; reflexivity|split; reflexivity].
  - apply Hf. vm_compute. reflexivity.
Defined.

End Tables.

(** ** The report of [astTest.py] *)

Section Report.
Import ASTVisitor Scenario.

(** [added] holds exactly the function names defined in the new tree and
    not in the old one, [removed] the converse; neither list repeats a name
    and no name is in both. *)
Theorem astTest_added_removed (old_tree new_tree : value) (name : string) :
  let report := astTest.analyze_changes (astTest.__init__ old_tree new_tree) in
  (In name (astTest.added_functions report) <->
     defines_function new_tree name /\ ~ defines_function old_tree name)
  /\ (In name (astTest.removed_functions report) <->
      defines_function old_tree name /\ ~ defines_function new_tree name)
  /\ NoDup (astTest.added_functions report)
  /\ NoDup (astTest.removed_functions report)
  /\ ~ (In name (astTest.added_functions report)
        /\ In name (astTest.removed_functions report)).
Proof.
  cbv zeta. unfold astTest.analyze_changes.
  cbn [astTest.added_functions astTest.removed_functions
       astTest.old_visitor astTest.new_visitor astTest.__init__].
  rewrite <- !list_elem_of_In, !elem_of_elements, !elem_of_difference.
  rewrite <- !defines_function_dom.
  split; [reflexivity|]. split; [reflexivity|].
  split; [apply NoDup_elements|]. split; [apply NoDup_elements|].
  tauto.
Qed.

(** [function_changes] holds one record for each function name defined in
    both trees, and no other. *)
Theorem astTest_function_changes_shared (old_tree new_tree : value)
    (name : string) :
  let report := astTest.analyze_changes (astTest.__init__ old_tree new_tree) in
  (In name (map astTest.FunctionChange.name (astTest.function_changes report))
   <-> defines_function old_tree name /\ defines_function new_tree name)
  /\ NoDup (map astTest.FunctionChange.name (astTest.function_changes report)).
Proof.
  cbv zeta. rewrite astTest_function_changes_names.
  cbn [astTest.old_visitor astTest.new_visitor astTest.__init__].
  rewrite <- list_elem_of_In, elem_of_elements, elem_of_intersection.
  rewrite <- !defines_function_dom.
  split; [reflexivity|apply NoDup_elements].
Qed.

End Report.

(** ** Nodes reached by [ast.walk] *)

Section Walked.
Import ASTVisitor Scenario.

Lemma walk_queue_nil (fuel : nat) : walk_queue fuel [] = [].
Proof. destruct fuel; reflexivity. Qed.

(** On a value that is not a node the walk yields the value alone. *)
Lemma walk_not_AST (v : value) : is_AST v = false -> walk v = [v].
Proof.
  destruct v as [c|cls fs|items]; intros H; try discriminate H.
  - reflexivity.
  - unfold walk. cbn [weight walk_queue]. f_equal. apply walk_queue_nil.
Qed.

(** A definition node is yielded by the walk exactly when it is a node of
    the tree. *)
Lemma walk_defs (root node : value) :
  is_FunctionDef node = true ->
  (In node (walk root) <-> In node (preorder root)).
Proof.
  intros Hf. destruct (is_AST root) eqn:Hr.
  - assert (Hp := walk_preorder root Hr).
    split; intros H.
    + eapply Permutation_in; [exact Hp|exact H].
    + eapply Permutation_in; [symmetry; exact Hp|exact H].
  - rewrite (walk_not_AST root Hr).
    assert (Hpre : preorder root = []) by (destruct root; [reflexivity|discriminate Hr|reflexivity]).
    rewrite Hpre. split; [|intros H; destruct H].
    intros [H|H]; [|destruct H]. subst node.
    destruct root; [discriminate Hf|discriminate Hr|discriminate Hf].
Qed.

Lemma tail_walk_preorder (root : value) :
  Permutation (tail (walk root)) (tail (preorder root)).
Proof.
  destruct (is_AST root) eqn:Hr.
  - destruct root as [c|cls fs|items]; try discriminate Hr.
    assert (Hp := walk_preorder (Node cls fs) eq_refl).
    unfold walk in *. cbn [weight walk_queue] in *.
    rewrite preorder_children in *. cbn [tail].
    apply Permutation_cons_inv in Hp. exact Hp.
  - rewrite (walk_not_AST root Hr).
    destruct root; [constructor|discriminate Hr|constructor].
Qed.

Lemma fold_methods_lookup (name : string) (l : list value) :
  forall d : gmap string value,
    fold_left (fun (d : gmap string value) (node : value) =>
                 if is_FunctionDef node then <[name_of node := node]> d else d)
              l d !! name
    = match last (named is_FunctionDef name l) with
      | Some n => Some n
      | None => d !! name
      end.
Proof.
  induction l as [|x l IH]; intros d; [reflexivity|].
  cbn [fold_left]. rewrite IH. unfold named at 2. cbn [List.filter].
  fold (named is_FunctionDef name l).
  destruct (is_FunctionDef x) eqn:Hf; cbn [andb]; [|reflexivity].
  destruct (String.eqb (name_of x) name) eqn:Hn.
  - rewrite last_cons_filter. apply String.eqb_eq in Hn.
    destruct (last (named is_FunctionDef name l)); [reflexivity|].
    rewrite Hn. apply lookup_insert_eq.
  - apply String.eqb_neq in Hn.
    destruct (last (named is_FunctionDef name l)); [reflexivity|].
    apply lookup_insert_ne. exact Hn.
Qed.

Lemma methods_of_lookup (cls : value) (name : string) :
  astTest.methods_of cls !! name = last (named is_FunctionDef name (walk cls)).
Proof.
  unfold astTest.methods_of. rewrite fold_methods_lookup.
  destruct (last _); reflexivity.
Qed.

Lemma methods_of_sound (cls : value) (name : string) (node : value) :
  astTest.methods_of cls !! name = Some node ->
  In node (preorder cls) /\ is_FunctionDef node = true /\ name_of node = name.
Proof.
  rewrite methods_of_lookup. intros H.
  apply last_named_sound in H. destruct H as (Hin & Hf & Hn).
  split; [apply (walk_defs cls node Hf), Hin|auto].
Qed.

(** The method table of a class holds every [FunctionDef] node found
    anywhere below the class, functions nested in methods included: its
    keys are their names, and each entry is such a node stored under its
    own name. *)
Theorem method_table_sound (cls : value) (name : string) :
  (name ∈ dom (astTest.methods_of cls) <-> defines_function cls name)
  /\ (forall node, astTest.methods_of cls !! name = Some node ->
        In node (preorder cls)
        /\ is_FunctionDef node = true /\ name_of node = name).
Proof.
  split; [|apply methods_of_sound].
  rewrite elem_of_dom. split.
  - intros [node H]. exists node. apply (methods_of_sound _ _ _ H).
  - intros (node & Hin & Hf & Hn). rewrite methods_of_lookup.
    apply (named_complete is_FunctionDef name (walk cls) node);
      [apply (walk_defs cls node Hf), Hin|exact Hf|exact Hn].
Qed.

Lemma method_table_sound_witness :
  "f" ∈ dom (astTest.methods_of class_C)
  /\ In method_f (preorder class_C)
  /\ is_FunctionDef method_f = true /\ name_of method_f = "f".
Proof.
  pose proof (method_table_sound class_C "f") as (Hk & Hm).
  split.
  - apply Hk. exists method_f. split; [right; left; reflexivity|split; reflexivity].
  - apply Hm. vm_compute. reflexivity.
Defined.

Lemma nested_names_spec (func : value) (name : string) :
  name ∈ astTest.nested_names func <-> defines_nested func name.
Proof.
  unfold astTest.nested_names, defines_nested.
  rewrite elem_of_list_to_set, list_elem_of_In, in_map_iff. split.
  - intros (node & Hn & Hin). apply list_elem_of_In, list_elem_of_filter in Hin.
    destruct Hin as [Hf Hin]. exists node. split; [|auto].
    eapply Permutation_in; [apply tail_walk_preorder|].
    apply list_elem_of_In, Hin.
  - intros (node & Hin & Hf & Hn). exists node. split; [exact Hn|].
    apply list_elem_of_In, list_elem_of_filter. split; [exact Hf|].
    apply list_elem_of_In. eapply Permutation_in;
      [symmetry; apply tail_walk_preorder|exact Hin].
Qed.

(** The nested-function flag is set exactly when the two functions do not
    have the same set of names of [FunctionDef] nodes strictly below them,
    at any depth; how often and in which order a name occurs plays no
    part. *)
Theorem nested_function_change_iff (old_func new_func : value) :
  astTest._has_nested_function_change old_func new_func = true <->
  ~ (forall name, defines_nested old_func name <-> defines_nested new_func name).
Proof.
  unfold astTest._has_nested_function_change.
  rewrite bool_decide_eq_true. split.
  - intros Hne Hall. apply Hne, set_eq. intros name.
    rewrite !nested_names_spec. apply Hall.
  - intros Hnot Heq. apply Hnot. intros name.
    rewrite <- !nested_names_spec, Heq. reflexivity.
Qed.

End Walked.

(** ** More on the body severity *)

Section BodySeverity.
Import Scenario.

(** The severity does not depend on which body is the old one. *)
Theorem body_change_symmetric (old_body new_body : list value) :
  astTest._analyze_body_change old_body new_body
  = astTest._analyze_body_change new_body old_body.
Proof.
  unfold astTest._analyze_body_change.
  set (oh := map astTest.ASTHasher_visit old_body).
  set (nh := map astTest.ASTHasher_visit new_body).
  destruct (decide (oh = nh)) as [He|He].
  - rewrite (bool_decide_eq_true_2 (oh = nh)) by congruence.
    rewrite (bool_decide_eq_true_2 (nh = oh)) by congruence. reflexivity.
  - rewrite (bool_decide_eq_false_2 (oh = nh)) by congruence.
    rewrite (bool_decide_eq_false_2 (nh = oh)) by congruence.
    rewrite (Nat.eqb_sym (size (list_to_set nh : gset string))).
    destruct (negb _); [reflexivity|].
    rewrite (bool_decide_ext
               ((list_to_set nh : gset string) ≠ list_to_set oh)
               ((list_to_set oh : gset string) ≠ list_to_set nh))
      by (split; congruence).
    reflexivity.
Qed.

Lemma distinct_snoc_new (l : list string) (h : string) :
  ~ In h l -> distinct (l ++ [h]) = S (distinct l).
Proof.
  intros Hnew. rewrite <- !size_list_to_set_distinct.
  rewrite list_to_set_app_L, size_union.
  - cbn [list_to_set foldr]. rewrite union_empty_r_L, size_singleton. lia.
  - intros x Hx Hh. apply elem_of_list_to_set, list_elem_of_In in Hx.
    cbn in Hh. rewrite union_empty_r_L in Hh.
    apply elem_of_singleton in Hh. subst x. contradiction.
Qed.

(** Appending one statement to a body: when its fingerprint already occurs
    in the body the result is [rearrangement], when it does not the result
    is [structural]. *)
Theorem append_statement (body : list value) (stmt : value) :
  (In (astTest.ASTHasher_visit stmt) (fingerprints body) ->
   astTest._analyze_body_change body (body ++ [stmt]) = rearrangement)
  /\ (~ In (astTest.ASTHasher_visit stmt) (fingerprints body) ->
      astTest._analyze_body_change body (body ++ [stmt]) = structural).
Proof.
  destruct (analyze_body_change_cases body (body ++ [stmt]))
    as (_ & H2 & _ & H4).
  cbv zeta in H2, H4. unfold fingerprints in *. rewrite map_app in *.
  cbn [map] in *.
  set (l := map astTest.ASTHasher_visit body) in *.
  set (h := astTest.ASTHasher_visit stmt) in *.
  assert (Hne : l <> l ++ [h]).
  { intros Heq. apply (f_equal (@length string)) in Heq.
    rewrite length_app in Heq. cbn in Heq. lia. }
  split; intros Hin.
  - apply H4; [exact Hne|]. intros x. rewrite in_app_iff. cbn.
    split; [auto|]. intros [Hx|[<-|[]]]; assumption.
  - apply H2; [exact Hne|]. rewrite distinct_snoc_new by exact Hin. lia.
Qed.

Lemma append_statement_witness :
  astTest._analyze_body_change [assign_x] ([assign_x] ++ [assign_y])
    = rearrangement
  /\ astTest._analyze_body_change [assign_x] ([assign_x] ++ [Pass])
    = structural.
Proof.
  split.
  - apply (proj1 (append_statement [assign_x] assign_y)).
    vm_compute. left. reflexivity.
  - apply (proj2 (append_statement [assign_x] Pass)).
    vm_compute. intros [H|[]]. discriminate H.
Defined.

(** Edits confined to identifier names and literal values leave the body
    severity at [unchanged]. *)
Theorem body_change_blind_to_scalars (old_body new_body : list value) :
  Forall2 (fun a b => same_shape a b = true) old_body new_body ->
  astTest._analyze_body_change old_body new_body = unchanged.
Proof.
  intros Hshape.
  apply (proj1 (analyze_body_change_cases old_body new_body)).
  unfold fingerprints, astTest.ASTHasher_visit.
  induction Hshape as [|a b old new Hab _ IH]; [reflexivity|].
  cbn [map]. rewrite IH, (same_shape_hash_updates a b Hab). reflexivity.
Qed.

Lemma body_change_blind_to_scalars_witness :
  astTest._analyze_body_change [assign_x; print_item] [assign_y; print_item]
  = unchanged.
Proof.
  apply body_change_blind_to_scalars.
  repeat constructor.
Defined.

End BodySeverity.

(** ** Signature comparison on equal and on longer parameter lists *)

Section SignatureMore.
Import Scenario.

Lemma const_eq_refl (c : const) : const_eq c c = true.
Proof.
  destruct c as [|b|z|s]; cbn.
  - reflexivity.
  - destruct b; reflexivity.
  - apply Z.eqb_refl.
  - apply String.eqb_refl.
Qed.

Lemma assoc_unique (fs : list (string * value)) (f : string) (v : value) :
  unique (map fst fs) = true -> In (f, v) fs -> assoc f fs = Some v.
Proof.
  induction fs as [|[g w] fs IH]; intros Hu Hin; [destruct Hin|].
  cbn [map fst unique] in Hu. apply andb_true_iff in Hu.
  destruct Hu as [Hfresh Hu]. cbn [assoc].
  destruct Hin as [Heq|Hin].
  - injection Heq as -> ->. rewrite String.eqb_refl. reflexivity.
  - destruct (String.eqb f g) eqn:Hfg; [|apply IH; assumption].
    apply String.eqb_eq in Hfg. subst g.
    apply negb_true_iff in Hfresh.
    assert (Hex : existsb (String.eqb f) (map fst fs) = true).
    { apply existsb_exists. exists f. split; [|apply String.eqb_refl].
      apply in_map_iff. exists (f, v). split; [reflexivity|exact Hin]. }
    rewrite Hex in Hfresh. discriminate Hfresh.
Qed.

(** A well-formed node compares equal to itself. *)
Lemma compare_ast_nodes_refl (v : value) :
  well_formed v = true -> astTest._compare_ast_nodes v v = true.
Proof.
  induction v as [c|items|cls fs IH] using node_induction;
    intros Hwf; try discriminate Hwf.
  cbn [well_formed] in Hwf. apply andb_true_iff in Hwf.
  destruct Hwf as [Hu Hfields].
  cbn [astTest._compare_ast_nodes class_name_of].
  rewrite String.eqb_refl. cbn [negb].
  apply forallb_forall. intros [f v] Hin.
  rewrite forallb_forall in Hfields. specialize (Hfields _ Hin).
  rewrite List.Forall_forall in IH. specialize (IH _ Hin).
  destruct IH as [Hv Hitems]. cbn [fst snd] in *.
  unfold getattr. rewrite (assoc_unique fs f v Hu Hin).
  destruct v as [c|cls' fs'|items].
  - apply const_eq_refl.
  - apply Hv, Hfields.
  - rewrite Nat.eqb_refl. cbn [negb]. clear Hv Hin.
    induction Hitems as [|x items Hx _ IHitems]; [reflexivity|].
    cbn [forallb] in Hfields. apply andb_true_iff in Hfields.
    destruct Hfields as [Hxwf Hrest].
    apply andb_true_iff. split; [|apply IHitems, Hrest].
    destruct x as [c|cls' fs'|items']; [apply const_eq_refl|apply Hx, Hxwf|].
    discriminate Hxwf.
Qed.

Lemma same_parameters_wf (func : value) :
  well_formed (args_of func) = true ->
  astTest._has_signature_change func func = false.
Proof.
  intros Hwf. unfold astTest._has_signature_change.
  rewrite compare_ast_nodes_refl by exact Hwf. reflexivity.
Qed.

(** Two functions whose [arguments] nodes are the same well-formed node
    have no signature change, whatever their names and bodies. *)
Theorem same_parameters_not_flagged (old_func new_func : value) :
  args_of old_func = args_of new_func ->
  well_formed (args_of old_func) = true ->
  astTest._has_signature_change old_func new_func = false.
Proof.
  intros Heq Hwf. unfold astTest._has_signature_change.
  rewrite <- Heq, compare_ast_nodes_refl by exact Hwf. reflexivity.
Qed.

Lemma same_parameters_not_flagged_witness :
  astTest._has_signature_change old_process_data new_process_data = false.
Proof. apply same_parameters_not_flagged; reflexivity. Defined.

(** Two parameter lists with different numbers of positional parameters,
    or of default values, always set the signature flag. *)
Theorem parameter_count_change_flagged
    (name1 name2 : string) (args1 defaults1 args2 defaults2 : list value)
    (body1 body2 : list value) :
  length args1 <> length args2 \/ length defaults1 <> length defaults2 ->
  astTest._has_signature_change
    (FunctionDef name1 (arguments args1 defaults1) body1)
    (FunctionDef name2 (arguments args2 defaults2) body2) = true.
Proof.
  intros Hlen. unfold astTest._has_signature_change.
  apply negb_true_iff.
  change (args_of (FunctionDef name1 (arguments args1 defaults1) body1))
    with (arguments args1 defaults1).
  change (args_of (FunctionDef name2 (arguments args2 defaults2) body2))
    with (arguments args2 defaults2).
  unfold arguments.
  cbn [astTest._compare_ast_nodes class_name_of forallb fst snd].
  change (getattr _ "args") with (PyList args2).
  change (getattr _ "defaults") with (PyList defaults2).
  change (getattr _ "posonlyargs") with (PyList []).
  change (getattr _ "kwonlyargs") with (PyList []).
  change (getattr _ "kw_defaults") with (PyList []).
  change (getattr _ "vararg") with None_.
  change (getattr _ "kwarg") with None_.
  cbv iota beta.
  destruct Hlen as [H|H]; apply Nat.eqb_neq in H; rewrite H; cbn [negb].
  - reflexivity.
  - repeat rewrite andb_false_r. reflexivity.
Qed.

Lemma parameter_count_change_flagged_witness :
  astTest._has_signature_change
    (FunctionDef "greet" (arguments [arg "name"] []) [Pass])
    (FunctionDef "greet"
       (arguments [arg "name"; arg "greeting"] [Constant (CStr "Hello")])
       [Pass]) = true.
Proof.
  apply parameter_count_change_flagged. left. cbn. discriminate.
Defined.

End SignatureMore.

(** ** The method records of [astTest.py], and a tree against itself *)

Section Methods.
Import ASTVisitor Scenario.

Lemma ChangeType_eqb_eq (a b : astTest.ChangeType) :
  astTest.ChangeType_eqb a b = true <-> a = b.
Proof.
  destruct a as [a1 a2 a3], b as [b1 b2 b3]. unfold astTest.ChangeType_eqb.
  cbn. split.
  - intros H. apply andb_true_iff in H. destruct H as [H H3].
    apply andb_true_iff in H. destruct H as [H1 H2].
    apply Bool.eqb_prop in H1, H2, H3. congruence.
  - intros H. injection H as -> -> ->. rewrite !Bool.eqb_reflx. reflexivity.
Qed.

Lemma method_change_iff (class_name method_name : string)
    (old_methods new_methods : gmap string value)
    (r : astTest.ClassMethodChange.t) :
  In r (astTest.method_change class_name method_name old_methods new_methods)
  <->
  r = astTest.ClassMethodChange.mk class_name method_name
        (astTest._has_signature_change
           (astTest.item old_methods method_name)
           (astTest.item new_methods method_name))
        (astTest._analyze_body_change
           (body_of (astTest.item old_methods method_name))
           (body_of (astTest.item new_methods method_name)))
  /\ (astTest.ClassMethodChange.signature_change r = true
      \/ astTest.ClassMethodChange.body_change r <> astTest.ChangeType_default).
Proof.
  unfold astTest.method_change.
  set (s := astTest._has_signature_change _ _).
  set (b := astTest._analyze_body_change _ _).
  destruct (s || negb (astTest.ChangeType_eqb b astTest.ChangeType_default))
    eqn:Hkeep.
  - split.
    + intros [<-|[]]. split; [reflexivity|]. cbn.
      apply orb_true_iff in Hkeep. destruct Hkeep as [Hs|Hb]; [left; exact Hs|].
      right. intros Heq. apply negb_true_iff in Hb.
      apply ChangeType_eqb_eq in Heq. congruence.
    + intros [-> _]. left. reflexivity.
  - split; [intros []|]. intros [-> Hflag]. cbn in Hflag.
    apply orb_false_iff in Hkeep. destruct Hkeep as [Hs Hb].
    apply negb_false_iff, ChangeType_eqb_eq in Hb.
    destruct Hflag as [Hflag|Hflag]; congruence.
Qed.

(** A record is in [class_method_changes] exactly when its class name is
    defined in both trees, its method name is in the method tables of both
    versions of that class, its two findings are those computed for this
    pair of methods, and one of the findings is set. *)
Theorem astTest_method_changes_iff (self : astTest.CodeChangeAnalyzer)
    (r : astTest.ClassMethodChange.t) :
  let class_name := astTest.ClassMethodChange.class_name r in
  let method_name := astTest.ClassMethodChange.method_name r in
  let old_methods :=
    astTest.methods_of
      (astTest.item (classes (astTest.old_visitor self)) class_name) in
  let new_methods :=
    astTest.methods_of
      (astTest.item (classes (astTest.new_visitor self)) class_name) in
  In r (astTest._analyze_class_method_changes self) <->
  class_name ∈ dom (classes (astTest.old_visitor self))
               ∩ dom (classes (astTest.new_visitor self))
  /\ method_name ∈ dom old_methods ∩ dom new_methods
  /\ astTest.ClassMethodChange.signature_change r
     = astTest._has_signature_change (astTest.item old_methods method_name)
                                     (astTest.item new_methods method_name)
  /\ astTest.ClassMethodChange.body_change r
     = astTest._analyze_body_change
         (body_of (astTest.item old_methods method_name))
         (body_of (astTest.item new_methods method_name))
  /\ (astTest.ClassMethodChange.signature_change r = true
      \/ astTest.ClassMethodChange.body_change r <> astTest.ChangeType_default).
Proof.
  cbv zeta. unfold astTest._analyze_class_method_changes.
  rewrite in_flat_map. split.
  - intros (c & Hc & Hr). apply in_flat_map in Hr.
    destruct Hr as (m & Hm & Hr). apply method_change_iff in Hr.
    destruct Hr as [Hr Hflag].
    apply list_elem_of_In, elem_of_elements in Hc, Hm.
    rewrite Hr in *. cbn in *. auto.
  - intros (Hc & Hm & Hs & Hb & Hflag).
    exists (astTest.ClassMethodChange.class_name r). split.
    { apply list_elem_of_In, elem_of_elements, Hc. }
    apply in_flat_map. exists (astTest.ClassMethodChange.method_name r). split.
    { apply list_elem_of_In, elem_of_elements, Hm. }
    apply method_change_iff. split; [|exact Hflag].
    destruct r as [c m s b]. cbn in *. rewrite Hs, Hb. reflexivity.
Qed.

(** A node of a node of the tree is a node of the tree. *)
Lemma preorder_trans (tree : value) :
  forall mid node,
    In mid (preorder tree) -> In node (preorder mid) -> In node (preorder tree).
Proof.
  induction tree as [c|items|cls fs IH] using node_induction;
    intros mid node Hmid Hnode; try (destruct Hmid).
  { subst mid. exact Hnode. }
  cbn [preorder]. right. cbn [preorder] in H.
  apply in_flat_map in H. destruct H as ([f v] & Hfv & Hv).
  apply in_flat_map. exists (f, v). split; [exact Hfv|].
  rewrite List.Forall_forall in IH. specialize (IH _ Hfv).
  destruct IH as [IHv IHitems]. cbn [snd] in *.
  destruct v as [c|cls' fs'|items]; [destruct Hv|apply (IHv mid node Hv Hnode)|].
  apply in_flat_map in Hv. destruct Hv as (x & Hx & Hv).
  apply in_flat_map. exists x. split; [exact Hx|].
  rewrite List.Forall_forall in IHitems. specialize (IHitems _ Hx).
  destruct x as [c|cls' fs'|items']; [destruct Hv| |destruct Hv].
  apply (IHitems mid node Hv Hnode).
Qed.

Lemma flat_map_nil {A B : Type} (f : A -> list B) (l : list A) :
  (forall x, In x l -> f x = []) -> flat_map f l = [].
Proof.
  induction l as [|x l IH]; intros H; [reflexivity|].
  cbn [flat_map]. rewrite (H x) by (left; reflexivity).
  apply IH. intros y Hy. apply H. right. exact Hy.
Qed.

Lemma body_change_refl (body : list value) :
  astTest._analyze_body_change body body = astTest.ChangeType_default.
Proof.
  unfold astTest._analyze_body_change.
  rewrite bool_decide_eq_true_2 by reflexivity. reflexivity.
Qed.

(** Comparing a tree with itself, when the [arguments] node of each of its
    function definitions is well formed: nothing is added or removed, no
    method record is produced, and every record of [function_changes] has
    its three findings unset. *)
Theorem astTest_self_comparison (tree : value) :
  (forall node, In node (preorder tree) -> is_FunctionDef node = true ->
                well_formed (args_of node) = true) ->
  let report := astTest.analyze_changes (astTest.__init__ tree tree) in
  astTest.added_functions report = []
  /\ astTest.removed_functions report = []
  /\ astTest.class_method_changes report = []
  /\ Forall (fun r =>
               astTest.FunctionChange.signature_change r = false
               /\ astTest.FunctionChange.body_change r = unchanged
               /\ astTest.FunctionChange.nested_function_change r = false)
            (astTest.function_changes report).
Proof.
  intros Hwf. cbv zeta. unfold astTest.analyze_changes.
  cbn [astTest.added_functions astTest.removed_functions
       astTest.class_method_changes astTest.function_changes
       astTest.old_visitor astTest.new_visitor astTest.__init__].
  rewrite difference_diag_L, elements_empty.
  split; [reflexivity|]. split; [reflexivity|]. split.
  - unfold astTest._analyze_class_method_changes.
    cbn [astTest.old_visitor astTest.new_visitor astTest.__init__].
    apply flat_map_nil. intros c Hc.
    apply list_elem_of_In, elem_of_elements, elem_of_intersection in Hc.
    destruct Hc as [Hc _]. apply elem_of_dom in Hc. destruct Hc as [cls Hcls].
    assert (Hitem : astTest.item (classes (visit init tree)) c = cls)
      by (unfold astTest.item; rewrite Hcls; reflexivity).
    cbv beta zeta. rewrite !Hitem.
    rewrite visit_classes_lookup in Hcls. apply last_named_sound in Hcls.
    destruct Hcls as (Hcin & _ & _).
    apply flat_map_nil. intros m Hm.
    apply list_elem_of_In, elem_of_elements, elem_of_intersection in Hm.
    destruct Hm as [Hm _]. apply elem_of_dom in Hm. destruct Hm as [meth Hmeth].
    assert (Hm_item : astTest.item (astTest.methods_of cls) m = meth)
      by (unfold astTest.item; rewrite Hmeth; reflexivity).
    unfold astTest.method_change. rewrite !Hm_item.
    apply methods_of_sound in Hmeth. destruct Hmeth as (Hmin & Hmf & _).
    rewrite same_parameters_wf, body_change_refl; [reflexivity|].
    apply Hwf; [apply (preorder_trans tree cls meth Hcin Hmin)|exact Hmf].
  - apply Forall_map, List.Forall_forall. intros name Hname.
    apply list_elem_of_In, elem_of_elements, elem_of_intersection in Hname.
    destruct Hname as [Hname _]. apply elem_of_dom in Hname.
    destruct Hname as [func Hfunc].
    unfold astTest._analyze_function_change.
    cbn [astTest.old_visitor astTest.new_visitor astTest.__init__
         astTest.FunctionChange.signature_change
         astTest.FunctionChange.body_change
         astTest.FunctionChange.nested_function_change].
    assert (Hitem : astTest.item (functions (visit init tree)) name = func)
      by (unfold astTest.item; rewrite Hfunc; reflexivity).
    rewrite !Hitem.
    rewrite visit_functions_lookup in Hfunc. apply last_named_sound in Hfunc.
    destruct Hfunc as (Hin & Hf & _).
    rewrite same_parameters_wf by (apply Hwf; assumption).
    rewrite body_change_refl.
    split; [reflexivity|]. split; [reflexivity|].
    unfold astTest._has_nested_function_change.
    apply bool_decide_eq_false_2. intros Hne. apply Hne. reflexivity.
Qed.

Lemma astTest_self_comparison_witness :
  let report :=
    astTest.analyze_changes (astTest.__init__ shadow_module shadow_module) in
  astTest.added_functions report = []
  /\ astTest.removed_functions report = []
  /\ astTest.class_method_changes report = []
  /\ Forall (fun r =>
               astTest.FunctionChange.signature_change r = false
               /\ astTest.FunctionChange.body_change r = unchanged
               /\ astTest.FunctionChange.nested_function_change r = false)
            (astTest.function_changes report).
Proof.
  apply (astTest_self_comparison shadow_module).
  intros node Hin Hf. vm_compute in Hin.
  repeat (destruct Hin as [Heq|Hin];
          [subst node; first [reflexivity|vm_compute in Hf; discriminate Hf]|]).
  destruct Hin.
Defined.

End Methods.

(** ** The line scorer and surrounding whitespace *)

Section Padding.
Import PyStr.

Lemma append_cons (c : ascii) (s t : string) :
  String c s +:+ t = String c (s +:+ t).
Proof. reflexivity. Qed.

Lemma append_nil_r (s : string) : s +:+ EmptyString = s.
Proof.
  induction s as [|c s IH]; [reflexivity|]. rewrite append_cons, IH.
  reflexivity.
Qed.

Lemma all_space_app (s t : string) :
  all_space (s +:+ t) = all_space s && all_space t.
Proof.
  induction s as [|c s IH]; [reflexivity|].
  rewrite append_cons. cbn [all_space]. rewrite IH. apply andb_assoc.
Qed.

Lemma lstrip_all_space (s : string) :
  all_space s = true -> lstrip s = EmptyString.
Proof.
  induction s as [|c s IH]; [reflexivity|]. cbn [all_space lstrip].
  intros H. apply andb_true_iff in H. destruct H as [Hc Hs].
  rewrite Hc. apply IH, Hs.
Qed.

(** Stripping the left of a concatenation. *)
Lemma lstrip_app (s t : string) :
  lstrip (s +:+ t) = if all_space s then lstrip t else lstrip s +:+ t.
Proof.
  induction s as [|c s IH]; [reflexivity|].
  rewrite append_cons. cbn [lstrip all_space].
  destruct (is_space c); [exact IH|reflexivity].
Qed.

Lemma rev_app_spec (s acc : string) :
  String.rev_app s acc = String.rev s +:+ acc.
Proof.
  unfold String.rev. revert acc.
  induction s as [|c s IH]; intros acc; [reflexivity|].
  cbn [String.rev_app]. rewrite IH, (IH (String c EmptyString)).
  rewrite append_assoc. reflexivity.
Qed.

Lemma rev_cons (c : ascii) (s : string) :
  String.rev (String c s) = String.rev s +:+ String c EmptyString.
Proof. unfold String.rev at 1. cbn [String.rev_app]. apply rev_app_spec. Qed.

Lemma rev_append (s t : string) :
  String.rev (s +:+ t) = String.rev t +:+ String.rev s.
Proof.
  induction s as [|c s IH].
  - cbn. rewrite append_nil_r. reflexivity.
  - rewrite append_cons, !rev_cons, IH, append_assoc. reflexivity.
Qed.

Lemma all_space_rev (s : string) : all_space (String.rev s) = all_space s.
Proof.
  induction s as [|c s IH]; [reflexivity|].
  rewrite rev_cons, all_space_app, IH. cbn [all_space].
  rewrite andb_true_r. apply andb_comm.
Qed.

Lemma rstrip_app_space (s ws : string) :
  all_space ws = true -> rstrip (s +:+ ws) = rstrip s.
Proof.
  intros Hws. unfold rstrip. rewrite rev_append, lstrip_app, all_space_rev, Hws.
  reflexivity.
Qed.

Lemma strip_padding (ws1 ws2 s : string) :
  all_space ws1 = true -> all_space ws2 = true ->
  strip (ws1 +:+ s +:+ ws2) = strip s.
Proof.
  intros H1 H2. unfold strip. rewrite lstrip_app, H1, lstrip_app.
  destruct (all_space s) eqn:Hs.
  - rewrite (lstrip_all_space ws2 H2), (lstrip_all_space s Hs). reflexivity.
  - apply rstrip_app_space, H2.
Qed.

(** The first character of a string that does not start with white space
    survives the stripping of its right end. *)
Lemma rstrip_cons (c : ascii) (s : string) :
  is_space c = false -> rstrip (String c s) = String c (rstrip s).
Proof.
  intros Hc. unfold rstrip. rewrite rev_cons, lstrip_app.
  destruct (all_space (String.rev s)) eqn:Hs.
  - cbn [lstrip]. rewrite Hc, (lstrip_all_space _ Hs). reflexivity.
  - rewrite rev_append. reflexivity.
Qed.

(** White space around a line plays no part in its score. *)
Theorem categorize_ignores_padding (ws1 ws2 line : string) :
  all_space ws1 = true -> all_space ws2 = true ->
  ast2._categorize_change (ws1 +:+ line +:+ ws2) = ast2._categorize_change line.
Proof.
  intros H1 H2. unfold ast2._categorize_change.
  rewrite (strip_padding ws1 ws2 line H1 H2). reflexivity.
Qed.

Lemma categorize_ignores_padding_witness :
  ast2._categorize_change ("        " +:+ "item = data.pop()" +:+ "  ")
  = ast2._categorize_change "item = data.pop()".
Proof. apply categorize_ignores_padding; reflexivity. Defined.

(** A line made of white space only, the empty line included, is scored
    as a white-space change of priority 1. *)
Theorem categorize_blank_line (line : string) :
  all_space line = true ->
  ast2._categorize_change line
  = ast2.mkChangeType "minor" "Whitespace change" 1.
Proof.
  intros H. unfold ast2._categorize_change, strip.
  rewrite (lstrip_all_space line H). reflexivity.
Qed.

Lemma categorize_blank_line_witness :
  ast2._categorize_change "    "
  = ast2.mkChangeType "minor" "Whitespace change" 1.
Proof. apply categorize_blank_line. reflexivity. Defined.

(** A line whose first character after its indentation is [#] is scored
    as a comment change of priority 1, whatever follows the [#]: the
    comment rule comes first. *)
Theorem categorize_comment_line (ws rest : string) :
  all_space ws = true ->
  ast2._categorize_change (ws +:+ "#" +:+ rest)
  = ast2.mkChangeType "minor" "Comment changed" 1.
Proof.
  intros H. unfold ast2._categorize_change, strip.
  rewrite lstrip_app, H. rewrite append_cons.
  change (EmptyString +:+ rest) with rest.
  cbn [lstrip]. change (is_space "#") with false. cbv iota.
  rewrite rstrip_cons by reflexivity.
  assert (Hhash : startswith (String "#" (rstrip rest)) "#" = true).
  { unfold startswith. cbn [String.prefix].
    destruct (ascii_dec "#" "#"); [|congruence].
    destruct (rstrip rest); reflexivity. }
  rewrite Hhash. reflexivity.
Qed.

Lemma categorize_comment_line_witness :
  ast2._categorize_change ("    " +:+ "#" +:+ " x = 1 if y else 2")
  = ast2.mkChangeType "minor" "Comment changed" 1.
Proof. apply categorize_comment_line. reflexivity. Defined.

End Padding.

(** ** The report of [ast2.py] *)

Section Report2.
Import ASTVisitor Scenario.

Variable dump : value -> string.
Variable unparse : value -> string.
Variable unified_diff : list string -> list string -> list string.

(** When no function name is defined in both trees, [analyze_changes]
    returns a report: no changed function, every function name of the new
    tree in [added] and every function name of the old tree in [removed]. *)
Theorem ast2_disjoint_names_report (old_tree new_tree : value) :
  (forall name, defines_function old_tree name ->
                defines_function new_tree name -> False) ->
  exists report,
    ast2.analyze_changes dump unparse unified_diff
      (ast2.__init__ old_tree new_tree) = Ok report
    /\ ast2.changed_functions report = []
    /\ (forall name, In name (ast2.added_functions report)
                     <-> defines_function new_tree name)
    /\ (forall name, In name (ast2.removed_functions report)
                     <-> defines_function old_tree name).
Proof.
  intros Hnone.
  unfold ast2.analyze_changes.
  cbn [ast2.old_visitor ast2.new_visitor ast2.__init__].
  assert (Hempty : elements
            (dom (functions (visit init old_tree))
             ∩ dom (functions (visit init new_tree))) = []).
  { apply elements_empty_iff. intros name. split; [|intros []%elem_of_empty].
    intros Hin. exfalso.
    apply elem_of_intersection in Hin. destruct Hin as [Ho Hn].
    apply (Hnone name); apply defines_function_dom; assumption. }
  rewrite Hempty. cbn [ast2.for_func_name bind].
  eexists. split; [reflexivity|].
  cbn [ast2.changed_functions ast2.added_functions ast2.removed_functions].
  split; [reflexivity|].
  split; intros name;
    rewrite <- list_elem_of_In, elem_of_elements, elem_of_difference,
      <- !defines_function_dom;
    split; [tauto| |tauto|]; intros H; (split; [exact H|]);
    intros H'; eapply Hnone; eassumption.
Qed.

Lemma method_change2_iff (class_name method_name : string)
    (old_methods new_methods : gmap string value)
    (r : ast2.ClassMethodChange.t) :
  In r (ast2.method_change dump unparse unified_diff class_name method_name
          old_methods new_methods)
  <->
  r = ast2.ClassMethodChange.mk class_name method_name
        (ast2._analyze_signature_change dump
           (ast2.item old_methods method_name)
           (ast2.item new_methods method_name))
        (ast2._analyze_body_changes unparse unified_diff
           (ast2.item old_methods method_name)
           (ast2.item new_methods method_name))
  /\ (ast2.ClassMethodChange.signature_change r <> None
      \/ ast2.ClassMethodChange.body_changes r <> []).
Proof.
  unfold ast2.method_change.
  set (s := ast2._analyze_signature_change _ _ _).
  set (b := ast2._analyze_body_changes _ _ _ _).
  destruct (ast2.is_not_None s || Nat.ltb 0 (length b)) eqn:Hkeep.
  - split.
    + intros [<-|[]]. split; [reflexivity|]. cbn.
      apply orb_true_iff in Hkeep. destruct Hkeep as [Hs|Hb].
      * left. destruct s; [discriminate|discriminate Hs].
      * right. destruct b; [discriminate Hb|discriminate].
    + intros [-> _]. left. reflexivity.
  - split; [intros []|]. intros [-> Hflag]. cbn in Hflag.
    apply orb_false_iff in Hkeep. destruct Hkeep as [Hs Hb].
    destruct Hflag as [Hflag|Hflag].
    + destruct s; [discriminate Hs|congruence].
    + destruct b; [congruence|discriminate Hb].
Qed.

(** A record is in [changed_class_methods] exactly when its class name is
    defined in both trees, its method name is in the method tables of both
    versions of that class, its findings are those computed for this pair
    of methods, and it has a signature finding or at least one body
    finding. *)
Theorem ast2_method_changes_iff (self : ast2.CodeChangeAnalyzer)
    (r : ast2.ClassMethodChange.t) :
  let class_name := ast2.ClassMethodChange.class_name r in
  let method_name := ast2.ClassMethodChange.method_name r in
  let old_methods :=
    ast2.methods_of (ast2.item (classes (ast2.old_visitor self)) class_name) in
  let new_methods :=
    ast2.methods_of (ast2.item (classes (ast2.new_visitor self)) class_name) in
  In r (ast2._analyze_class_method_changes dump unparse unified_diff self) <->
  class_name ∈ dom (classes (ast2.old_visitor self))
               ∩ dom (classes (ast2.new_visitor self))
  /\ method_name ∈ dom old_methods ∩ dom new_methods
  /\ ast2.ClassMethodChange.signature_change r
     = ast2._analyze_signature_change dump
         (ast2.item old_methods method_name) (ast2.item new_methods method_name)
  /\ ast2.ClassMethodChange.body_changes r
     = ast2._analyze_body_changes unparse unified_diff
         (ast2.item old_methods method_name) (ast2.item new_methods method_name)
  /\ (ast2.ClassMethodChange.signature_change r <> None
      \/ ast2.ClassMethodChange.body_changes r <> []).
Proof.
  cbv zeta. unfold ast2._analyze_class_method_changes.
  rewrite in_flat_map. split.
  - intros (c & Hc & Hr). apply in_flat_map in Hr.
    destruct Hr as (m & Hm & Hr). apply method_change2_iff in Hr.
    destruct Hr as [Hr Hflag].
    apply list_elem_of_In, elem_of_elements in Hc, Hm.
    rewrite Hr in *. cbn in *. auto.
  - intros (Hc & Hm & Hs & Hb & Hflag).
    exists (ast2.ClassMethodChange.class_name r). split.
    { apply list_elem_of_In, elem_of_elements, Hc. }
    apply in_flat_map. exists (ast2.ClassMethodChange.method_name r). split.
    { apply list_elem_of_In, elem_of_elements, Hm. }
    apply method_change2_iff. split; [|exact Hflag].
    destruct r as [c m s b]. cbn in *. rewrite Hs, Hb. reflexivity.
Qed.

End Report2.

Lemma ast2_disjoint_names_report_witness :
  exists report,
    ast2.analyze_changes (fun _ => EmptyString) (fun _ => EmptyString)
      (fun _ _ => []) (ast2.__init__ Scenario.module_f Scenario.module_unchanged)
    = Ok report
    /\ ast2.changed_functions report = []
    /\ (forall name, In name (ast2.added_functions report)
                     <-> defines_function Scenario.module_unchanged name)
    /\ (forall name, In name (ast2.removed_functions report)
                     <-> defines_function Scenario.module_f name).
Proof.
  apply ast2_disjoint_names_report.
  intros name (n1 & Hin1 & _ & Hn1) (n2 & Hin2 & Hf2 & Hn2).
  vm_compute in Hin1, Hin2.
  repeat (destruct Hin1 as [H1|Hin1]; [subst n1|]); try (destruct Hin1);
    repeat (destruct Hin2 as [H2|Hin2]; [subst n2|]); try (destruct Hin2);
    vm_compute in Hn1, Hn2, Hf2; congruence.
Defined.

(** ** Renamed parameters, and the records of one hunk *)

Section RenameAndHunk.
Import Scenario PyStr.

Lemma compare_arg_names (x y : string) :
  x <> y -> astTest._compare_ast_nodes (arg x) (arg y) = false.
Proof.
  intros Hne. apply String.eqb_neq in Hne.
  unfold arg. cbn [astTest._compare_ast_nodes class_name_of forallb fst snd].
  change (getattr _ "arg") with (Str y).
  cbn [Str py_eq const_eq negb String.eqb Ascii.eqb Bool.eqb].
  cbv iota beta. unfold Str. cbn [py_eq const_eq]. rewrite Hne. reflexivity.
Qed.

Lemma compare_lists_differ (pre post1 post2 : list value) (a b : value) :
  astTest._compare_ast_nodes a b = false ->
  is_AST a = true -> is_AST b = true ->
  astTest._compare_ast_nodes
    (Node "L" [("items", PyList (pre ++ a :: post1))])
    (Node "L" [("items", PyList (pre ++ b :: post2))]) = false.
Proof.
  intros Hab Ha Hb.
  cbn [astTest._compare_ast_nodes class_name_of forallb fst snd].
  change (getattr _ "items") with (PyList (pre ++ b :: post2)).
  cbv iota beta. rewrite andb_true_r.
  destruct (negb (String.eqb _ _)); [reflexivity|].
  destruct (negb (Nat.eqb _ _)); [reflexivity|].
  induction pre as [|p pre IH].
  - cbn [app]. destruct a, b; try discriminate.
    rewrite Hab. reflexivity.
  - cbn [app]. rewrite IH. apply andb_false_r.
Qed.

(** Renaming one positional parameter sets the signature flag, whatever
    the other parameters, the default values and the bodies are. *)
Theorem parameter_rename_flagged
    (name1 name2 x y : string) (pre post1 post2 defaults1 defaults2 : list value)
    (body1 body2 : list value) :
  x <> y ->
  astTest._has_signature_change
    (FunctionDef name1 (arguments (pre ++ arg x :: post1) defaults1) body1)
    (FunctionDef name2 (arguments (pre ++ arg y :: post2) defaults2) body2)
  = true.
Proof.
  intros Hne. unfold astTest._has_signature_change.
  apply negb_true_iff.
  change (args_of (FunctionDef name1 _ body1))
    with (arguments (pre ++ arg x :: post1) defaults1).
  change (args_of (FunctionDef name2 _ body2))
    with (arguments (pre ++ arg y :: post2) defaults2).
  unfold arguments.
  cbn [astTest._compare_ast_nodes class_name_of forallb fst snd].
  change (getattr _ "args") with (PyList (pre ++ arg y :: post2)).
  change (getattr _ "defaults") with (PyList defaults2).
  change (getattr _ "posonlyargs") with (PyList []).
  change (getattr _ "kwonlyargs") with (PyList []).
  change (getattr _ "kw_defaults") with (PyList []).
  change (getattr _ "vararg") with None_.
  change (getattr _ "kwarg") with None_.
  cbv iota beta.
  pose proof (compare_lists_differ pre post1 post2 (arg x) (arg y)
                (compare_arg_names x y Hne) eq_refl eq_refl) as Hl.
  cbn [astTest._compare_ast_nodes class_name_of forallb fst snd] in Hl.
  change (getattr _ "items") with (PyList (pre ++ arg y :: post2)) in Hl.
  change (negb ("L" =? "L")%string) with false in Hl.
  cbv iota beta in Hl. rewrite andb_true_r in Hl.
  destruct (negb (String.eqb _ _)); [reflexivity|].
  rewrite Hl. reflexivity.
Qed.

Lemma parameter_rename_flagged_witness :
  astTest._has_signature_change
    (FunctionDef "add" (arguments ([arg "self"] ++ arg "a" :: [arg "b"]) []) [Pass])
    (FunctionDef "add" (arguments ([arg "self"] ++ arg "x" :: [arg "b"]) []) [Pass])
  = true.
Proof. apply parameter_rename_flagged. discriminate. Defined.

(** The records of a diff made of its two header lines and one hunk: one
    record per removed line, then one per added line, each scored on the
    text that follows the sign; the hunk header gives none. *)
Theorem score_diff_one_hunk (header1 header2 hunk : string)
    (removed added : list string) :
  startswith hunk "+" = false -> startswith hunk "-" = false ->
  ast2.score_diff
    (header1 :: header2 :: hunk
       :: map (String "-") removed ++ map (String "+") added)
  = map ast2._categorize_change removed ++ map ast2._categorize_change added.
Proof.
  intros Hp Hm. unfold ast2.score_diff. cbn [skipn flat_map].
  rewrite Hp, Hm. cbn [orb app]. rewrite flat_map_app. f_equal.
  - induction removed as [|l removed IH]; [reflexivity|].
    cbn [map flat_map]. rewrite IH.
    assert (H : startswith (String "-" l) "+" || startswith (String "-" l) "-"
                = true).
    { unfold startswith. cbn [String.prefix].
      destruct (ascii_dec "+" "-"); [discriminate|].
      destruct (ascii_dec "-" "-"); [|congruence]. destruct l; reflexivity. }
    rewrite H. reflexivity.
  - induction added as [|l added IH]; [reflexivity|].
    cbn [map flat_map]. rewrite IH.
    assert (H : startswith (String "+" l) "+" = true).
    { unfold startswith. cbn [String.prefix].
      destruct (ascii_dec "+" "+"); [|congruence]. destruct l; reflexivity. }
    rewrite H. reflexivity.
Qed.

Lemma score_diff_one_hunk_witness :
  ast2.score_diff process_data_diff
  = map ast2._categorize_change ["    for item in data:"]
    ++ map ast2._categorize_change
         ["    while data:"; "        item = data.pop()"].
Proof.
  apply (score_diff_one_hunk _ _ _ ["    for item in data:"]
           ["    while data:"; "        item = data.pop()"]); reflexivity.
Defined.

End RenameAndHunk.
